(** * Physical AI textbook: the chat client, the chat widget and the RAG pipeline

    The development follows the repository's layout.

    - [Js]       JavaScript values and the few built-ins the client relies on.
    - [Api]      the API client, [utils/api.js] (the second file of
                 [unnamed/part_000]): [queryChatbot], [submitFeedback],
                 [checkHealth].
    - [Chatbot]  the chat widget, [components/Chatbot.js] (the second file of
                 [frontend/src/pages/index.js]): its state and its handlers,
                 [handleSubmit] and [handleFeedback].
    - [Backend]  the Python pipeline (chunker, vector index, orchestrator,
                 ingestion job).  Its code is not part of the sources at hand, so
                 these definitions are modelled from the specification and say so.
    - [Expected], [Ids], [Demo], [PipelineDemo]: the predicates the theorems
                 are stated with, and sample data to run the definitions on.
    - [View], [Submission], [MoreDemo]: what the widget draws and what a
                 submission leaves, for the further facts on client and widget.

    Definitions come first, the theorems after them. *)

From Stdlib Require Import ZArith String Ascii List Bool Lia Floats QArith.
From stdpp Require Import base option list gmap strings sorting.
Import ListNotations.

Set Warnings "-register-all,-clear-no-such-hyp".

Local Open Scope string_scope.
Local Open Scope list_scope.

(* ===================================================================== *)
(** * JavaScript values *)
(* ===================================================================== *)

Module Js.

(** Values that cross the client: primitives, arrays and plain objects.  A
    number is an IEEE double.  An object is its list of own properties in
    insertion order (the order [JSON.stringify] writes them in); a parsed or
    literal object has each key once. *)
Inductive jsval : Type :=
| JUndefined
| JNull
| JBool (b : bool)
| JNum (x : float)
| JStr (s : string)
| JArr (items : list jsval)
| JObj (fields : list (string * jsval)).

(** What the host provides: the [process] global (absent in a browser, with
    or without an [env] table elsewhere), and two built-ins whose text output is
    the engine's business, [Number.prototype.toString] and
    [String.prototype.trim]. *)
Class Host : Type := {
  process : option (option (gmap string string));
  number_to_string : float -> string;
  trim : string -> string
}.

(** A thrown value: an Error object with its [name] and [message]. *)
Record exn : Type := MkExn { exn_name : string; exn_message : string }.

(** ToBoolean. *)
Definition truthy (v : jsval) : bool :=
  match v with
  | JUndefined | JNull => false
  | JBool b => b
  | JNum x => negb (PrimFloat.is_zero x || PrimFloat.is_nan x)
  | JStr s => negb (String.eqb s "")
  | JArr _ | JObj _ => true
  end.

(** [a || b]. *)
Definition or_else (a b : jsval) : jsval := if truthy a then a else b.

(** Own-property lookup in a property list. *)
Fixpoint assoc (name : string) (fields : list (string * jsval)) : option jsval :=
  match fields with
  | [] => None
  | (k, v) :: rest => if String.eqb k name then Some v else assoc name rest
  end.

Definition TypeError (message : string) : exn := MkExn "TypeError" message.

(** [v.name] for a property name that no prototype defines ([message],
    [response], [id], ...): a TypeError on [undefined] and [null], the own
    property of an object, [undefined] on everything else. *)
Definition get_prop (v : jsval) (name : string) : exn + jsval :=
  match v with
  | JUndefined =>
      inl (TypeError ("Cannot read properties of undefined (reading '" +:+ name +:+ "')"))
  | JNull =>
      inl (TypeError ("Cannot read properties of null (reading '" +:+ name +:+ "')"))
  | JObj fields => inr (default JUndefined (assoc name fields))
  | _ => inr JUndefined
  end.

Fixpoint join (sep : string) (parts : list string) : string :=
  match parts with
  | [] => ""
  | [p] => p
  | p :: rest => p +:+ sep +:+ join sep rest
  end.

Section WithHost.
Context `{Host}.

(** ToString, as template literals and the Error constructor apply it; an
    object is taken to have the built-in [toString]. *)
Fixpoint ToString (v : jsval) : string :=
  match v with
  | JUndefined => "undefined"
  | JNull => "null"
  | JBool true => "true"
  | JBool false => "false"
  | JNum x => number_to_string x
  | JStr s => s
  | JArr items =>
      join "," (map (fun item =>
                       match item with
                       | JUndefined | JNull => ""
                       | _ => ToString item
                       end) items)
  | JObj _ => "[object Object]"
  end.

(** [new Error(message)]: the message is converted unless it is undefined. *)
Definition new_Error (message : jsval) : exn :=
  MkExn "Error" match message with JUndefined => "" | _ => ToString message end.

End WithHost.

Definition is_finite (x : float) : bool :=
  negb (PrimFloat.is_nan x || PrimFloat.is_infinity x).

(** The JSON document [JSON.stringify] writes for a value in element or
    property position: a non-finite number and an undefined array element
    become [null], an undefined property is left out. *)
Fixpoint stringify_value (v : jsval) : jsval :=
  match v with
  | JUndefined => JNull
  | JNull => JNull
  | JBool b => JBool b
  | JNum x => if is_finite x then JNum x else JNull
  | JStr s => JStr s
  | JArr items => JArr (map stringify_value items)
  | JObj fields =>
      JObj ((fix props (fs : list (string * jsval)) : list (string * jsval) :=
               match fs with
               | [] => []
               | (k, JUndefined) :: rest => props rest
               | (k, x) :: rest => (k, stringify_value x) :: props rest
               end) fields)
  end.

(** [JSON.stringify(v)].  The text is represented by the document it denotes;
    the result is [None] when the call returns [undefined]. *)
Definition JSON_stringify (v : jsval) : option jsval :=
  match v with
  | JUndefined => None
  | _ => Some (stringify_value v)
  end.

(** A parameter with a default value takes it when the argument is
    [undefined], passed so or left out. *)
Definition default_param (arg dflt : jsval) : jsval :=
  match arg with JUndefined => dflt | _ => arg end.

(** [a === b] when one of the two is a primitive.  Two arrays or objects
    are compared by reference; values carry no reference here, and the answer
    for two of them is [false], which is so for values read from different
    replies and is not so for a value compared with itself.  What is stated
    of a comparison is therefore stated for a primitive on one side. *)
Definition strict_eq (a b : jsval) : bool :=
  match a, b with
  | JUndefined, JUndefined => true
  | JNull, JNull => true
  | JBool x, JBool y => Bool.eqb x y
  | JNum x, JNum y => PrimFloat.eqb x y
  | JStr x, JStr y => String.eqb x y
  | _, _ => false
  end.

End Js.

(* ===================================================================== *)
(** * The API client, [utils/api.js] *)
(* ===================================================================== *)

Module Api.
Import Js.

(** What [fetch] is given. *)
Record request : Type := MkRequest {
  url : string;
  method : string;
  headers : list (string * string);
  body : option jsval
}.

(** What [fetch] resolves with: the status line and what [response.json()]
    will settle to, the parsed body or the parse error. *)
Record response : Type := MkResponse {
  status : Z;
  json_body : exn + jsval
}.

(** [response.ok]: the status is in the range 200-299. *)
Definition ok (r : response) : bool :=
  ((200 <=? status r) && (status r <=? 299))%Z.

(** The network: [fetch] rejects or resolves. *)
Definition network : Type := request -> exn + response.

(** What an asynchronous function lets the outside see while it runs. *)
Inductive event : Type :=
| Fetch (r : request)
| ConsoleError (label : string) (e : exn)
| PreventDefault.

(** How it settles: fulfilled with a value or rejected with a thrown one. *)
Inductive completion (A : Type) : Type :=
| Normal (a : A)
| Throw (e : exn).
Arguments Normal {A} a.
Arguments Throw {A} e.

(** An asynchronous computation: run against a network, it leaves a trace of
    events and settles. *)
Definition Async (A : Type) : Type := network -> list event * completion A.

Definition ret {A} (a : A) : Async A := fun _ => ([], Normal a).
Definition throw {A} (e : exn) : Async A := fun _ => ([], Throw e).
Definition emit (ev : event) : Async unit := fun _ => ([ev], Normal tt).

Definition bind {A B} (m : Async A) (k : A -> Async B) : Async B :=
  fun net =>
    match m net with
    | (t, Normal a) => let '(t', c) := k a net in (t ++ t', c)
    | (t, Throw e) => (t, Throw e)
    end.

Notation "'let*' x ':=' m 'in' k" := (bind m (fun x => k))
  (at level 10, x name, m at level 100, k at level 200).

(** [try { body } catch (error) { handler }]. *)
Definition try_catch {A} (body : Async A) (handler : exn -> Async A) : Async A :=
  fun net =>
    match body net with
    | (t, Normal a) => (t, Normal a)
    | (t, Throw e) => let '(t', c) := handler e net in (t ++ t', c)
    end.

(** [await] of a settled promise. *)
Definition await {A} (p : exn + A) : Async A :=
  match p with inl e => throw e | inr a => ret a end.

Definition fetch (r : request) : Async response :=
  fun net => ([Fetch r], match net r with inl e => Throw e | inr resp => Normal resp end).

(** [fetch(url)] with no options is a GET without headers or body. *)
Definition get_request (u : string) : request := MkRequest u "GET" [] None.

Definition console_error (label : string) (e : exn) : Async unit :=
  emit (ConsoleError label e).

Definition trace {A} (m : Async A) (net : network) : list event := fst (m net).
Definition outcome {A} (m : Async A) (net : network) : completion A := snd (m net).

(** The requests among the events of a trace, in order. *)
Definition requests (t : list event) : list request :=
  omap (fun ev => match ev with Fetch r => Some r | _ => None end) t.

Section WithHost.
Context `{Host}.

Definition DEFAULT_API_URL : string := "https://physical-ai-books.onrender.com".

(** [typeof process !== 'undefined' && process.env?.REACT_APP_API_URL
      ? process.env.REACT_APP_API_URL : '...']. *)
Definition API_BASE_URL : string :=
  match process with
  | Some (Some env) =>
      match env !! "REACT_APP_API_URL" with
      | Some u => if String.eqb u "" then DEFAULT_API_URL else u
      | None => DEFAULT_API_URL
      end
  | _ => DEFAULT_API_URL
  end.

Definition json_headers : list (string * string) :=
  [("Content-Type", "application/json")].

(** The object literal [queryChatbot] serialises. *)
Definition chat_payload (query chapter selectedText : jsval) : jsval :=
  JObj [("query", query); ("chapter", chapter);
        ("selected_text", selectedText); ("stream", JBool false)].

(** The request [queryChatbot] hands to [fetch], from its arguments as
    passed. *)
Definition chat_request (query chapter selectedText : jsval) : request :=
  let chapter := default_param chapter JNull in
  let selectedText := default_param selectedText JNull in
  MkRequest (API_BASE_URL +:+ "/chat") "POST" json_headers
            (JSON_stringify (chat_payload query chapter selectedText)).

Definition queryChatbot (query chapter selectedText : jsval) : Async jsval :=
  try_catch
    (let* response := fetch (chat_request query chapter selectedText) in
     if negb (ok response) then
       let* errorData := await (json_body response) in
       let* message := await (get_prop errorData "message") in
       throw (new_Error (or_else message (JStr "Failed to get response from chatbot")))
     else
       await (json_body response))
    (fun error =>
       let* _ := console_error "Chatbot query error:" error in
       throw error).

(** The request [submitFeedback] hands to [fetch]. *)
Definition feedback_request (messageId feedback : jsval) : request :=
  MkRequest (API_BASE_URL +:+ "/chat/" +:+ ToString messageId +:+ "/feedback")
            "PUT" json_headers
            (JSON_stringify (JObj [("feedback", feedback)])).

Definition submitFeedback (messageId feedback : jsval) : Async jsval :=
  try_catch
    (let* response := fetch (feedback_request messageId feedback) in
     if negb (ok response) then
       let* errorData := await (json_body response) in
       let* message := await (get_prop errorData "message") in
       throw (new_Error (or_else message (JStr "Failed to submit feedback")))
     else
       await (json_body response))
    (fun error =>
       let* _ := console_error "Feedback submission error:" error in
       throw error).

Definition health_request : request := get_request (API_BASE_URL +:+ "/health").

Definition checkHealth : Async jsval :=
  try_catch
    (let* response := fetch health_request in
     await (json_body response))
    (fun error =>
       let* _ := console_error "Health check error:" error in
       throw error).

End WithHost.

End Api.

(* ===================================================================== *)
(** * The chat widget, [components/Chatbot.js] *)
(* ===================================================================== *)

Module Chatbot.
Import Js Api.

(** A [Date] object: the clock as read by [new Date()], or [new Date(v)]. *)
Inductive Date : Type :=
| DateNow (epoch_ms : float)
| DateOf (v : jsval).

(** An entry of the [messages] array.  A property an entry does not have
    reads as [undefined]. *)
Record message : Type := MkMessage {
  type : string;
  content : jsval;
  sources : jsval;
  confidence : jsval;
  messageId : jsval;
  timestamp : Date;
  feedback : jsval
}.

(** [{ ...msg, feedback: feedbackType }]. *)
Definition with_feedback (feedbackType : jsval) (msg : message) : message :=
  MkMessage (type msg) (content msg) (sources msg) (confidence msg)
            (messageId msg) (timestamp msg) feedbackType.

(** The component's state hooks; [error] is [null] or a text. *)
Record state : Type := MkState {
  isOpen : bool;
  messages : list message;
  inputValue : string;
  isLoading : bool;
  error : option string
}.

Definition setIsOpen (b : bool) (st : state) : state :=
  MkState b (messages st) (inputValue st) (isLoading st) (error st).
Definition setMessages (f : list message -> list message) (st : state) : state :=
  MkState (isOpen st) (f (messages st)) (inputValue st) (isLoading st) (error st).
Definition setInputValue (s : string) (st : state) : state :=
  MkState (isOpen st) (messages st) s (isLoading st) (error st).
Definition setIsLoading (b : bool) (st : state) : state :=
  MkState (isOpen st) (messages st) (inputValue st) b (error st).
Definition setError (e : option string) (st : state) : state :=
  MkState (isOpen st) (messages st) (inputValue st) (isLoading st) e.

Definition GREETING : string :=
  "Hi! I'm your AI assistant for the Physical AI & Humanoid Robotics textbook. Ask me anything about the course content!".

Definition initial_state (mounted_at : float) : state :=
  MkState false
    [MkMessage "bot" (JStr GREETING) JUndefined JUndefined JUndefined
               (DateNow mounted_at) JUndefined]
    "" false None.

Section WithHost.
Context `{Host}.

(** [handleSubmit(e)].  [sent_at] and [failed_at] are the two readings of the
    clock the handler may take.  The handler is taken as one step: the
    updates it queues are applied in order to the state it started from. *)
Definition handleSubmit (sent_at failed_at : float) (st : state) : Async state :=
  let* _ := emit PreventDefault in
  let query := trim (inputValue st) in
  if String.eqb query "" || isLoading st then ret st
  else
    let userMessage :=
      MkMessage "user" (JStr query) JUndefined JUndefined JUndefined
                (DateNow sent_at) JUndefined in
    let st :=
      setIsLoading true
        (setError None
           (setInputValue ""
              (setMessages (fun prev => prev ++ [userMessage]) st))) in
    let* st :=
      try_catch
        (let* response := queryChatbot (JStr query) JUndefined JUndefined in
         let* r_response := await (get_prop response "response") in
         let* r_sources := await (get_prop response "sources") in
         let* r_confidence := await (get_prop response "confidence") in
         let* r_id := await (get_prop response "id") in
         let* r_created_at := await (get_prop response "created_at") in
         let botMessage :=
           MkMessage "bot" r_response r_sources r_confidence r_id
                     (DateOf r_created_at) JUndefined in
         ret (setMessages (fun prev => prev ++ [botMessage]) st))
        (fun err =>
           let text :=
             if String.eqb (exn_message err) ""
             then "Failed to get response. Please try again."
             else exn_message err in
           let errorMessage :=
             MkMessage "error"
               (JStr "Sorry, I encountered an error. Please make sure the backend server is running and try again.")
               JUndefined JUndefined JUndefined (DateNow failed_at) JUndefined in
           ret (setMessages (fun prev => prev ++ [errorMessage])
                  (setError (Some text) st))) in
    ret (setIsLoading false st).

(** [handleFeedback(messageId, feedbackType)]. *)
Definition handleFeedback (id feedbackType : jsval) (st : state) : Async state :=
  try_catch
    (let* _ := submitFeedback id feedbackType in
     ret (setMessages
            (fun prev =>
               map (fun msg =>
                      if strict_eq (messageId msg) id
                      then with_feedback feedbackType msg
                      else msg) prev)
            st))
    (fun err =>
       let* _ := console_error "Failed to submit feedback:" err in
       ret st).

Definition toggleChatbot (st : state) : state := setIsOpen (negb (isOpen st)) st.

(** [handleKeyDown(e)]: Enter without Shift submits. *)
Definition handleKeyDown (key : string) (shiftKey : bool)
    (sent_at failed_at : float) (st : state) : Async state :=
  if String.eqb key "Enter" && negb shiftKey then
    let* _ := emit PreventDefault in
    handleSubmit sent_at failed_at st
  else ret st.

(** The feedback buttons are drawn under a message when
    [message.type === 'bot' && message.messageId && !message.feedback]. *)
Definition shows_feedback_buttons (msg : message) : bool :=
  String.eqb (type msg) "bot" && truthy (messageId msg) && negb (truthy (feedback msg)).

(** What a user can do to the rendered widget. *)
Inductive action : Type :=
| ClickToggle
| ChangeInput (value : string)
| SubmitForm (sent_at failed_at : float)
| KeyDown (key : string) (shiftKey : bool) (sent_at failed_at : float)
| ClickFeedback (index : nat) (helpful : bool).

(** One user action on the widget.  The panel, with the form and the message
    list, is rendered only while [isOpen]; an action on what is not rendered
    changes nothing. *)
Definition step (a : action) (st : state) : Async state :=
  match a with
  | ClickToggle => ret (toggleChatbot st)
  | ChangeInput value =>
      if isOpen st then ret (setInputValue value st) else ret st
  | SubmitForm sent_at failed_at =>
      if isOpen st then handleSubmit sent_at failed_at st else ret st
  | KeyDown key shiftKey sent_at failed_at =>
      if isOpen st then handleKeyDown key shiftKey sent_at failed_at st else ret st
  | ClickFeedback index helpful =>
      match messages st !! index with
      | Some msg =>
          if isOpen st && shows_feedback_buttons msg then
            handleFeedback (messageId msg)
              (JStr (if helpful then "helpful" else "not_helpful")) st
          else ret st
      | None => ret st
      end
  end.

(** A session of handler calls: each action runs against the network as it
    is then.  The state is carried on whether the handler settles or not; none
    of the handlers above rejects.  Only the handlers are run: what the widget
    draws between two actions is not part of a session, so a session stands
    for a widget that stays mounted, and what is stated over [run] is stated
    of every handler call, whatever the state it starts from. *)
Fixpoint run (session : list (action * network)) (st : state) : list event * state :=
  match session with
  | [] => ([], st)
  | (a, net) :: rest =>
      match step a st net with
      | (t, Normal st') => let '(t', final) := run rest st' in (t ++ t', final)
      | (t, Throw _) => let '(t', final) := run rest st in (t ++ t', final)
      end
  end.

End WithHost.

End Chatbot.

(* ===================================================================== *)
(** * The backend pipeline *)
(* ===================================================================== *)

(** The Python modules behind the HTTP routes ([ingest_content.py],
    [qdrant_client.py], [openai_client.py], [services/rag_service.py]) are
    not among the sources at hand.  Each definition of this part is modelled
    from the specification, and its comment names the paragraph it follows. *)

Module Backend.

(** Document text: a sequence of characters. *)
Abbreviation text := (list ascii).

Definition newline : ascii := "010"%char.

(* --------------------------------------------------------------------- *)
(** ** Content Chunker (specification 3 and 4.1) *)
(* --------------------------------------------------------------------- *)

Module Chunker.

(** Modelled from the spec: the Chunk entity of the data model, whose code
    is missing: source identifier, section label, raw text, sequence index
    within the source, overlap length with the neighbouring chunk. *)
Record Chunk : Type := MkChunk {
  source : string;
  section : text;
  chunk_text : text;
  sequence : nat;
  overlap : nat
}.

(** Modelled from the spec: the chunker's two settings, whose code is
    missing. *)
Record config : Type := MkConfig {
  max_chunk_size : nat;
  overlap_size : nat
}.

Inductive ConfigurationError : Type :=
| OverlapNotBelowMaximum (max_size overlap : nat).

(** Modelled from the spec: the start-up check of 4.1, whose code is missing:
    [overlap_size >= max_chunk_size] is a configuration error reported at
    start-up, not per call. *)
Definition validate (cfg : config) : ConfigurationError + config :=
  if (overlap_size cfg <? max_chunk_size cfg)%nat then inr cfg
  else inl (OverlapNotBelowMaximum (max_chunk_size cfg) (overlap_size cfg)).

Definition is_space (c : ascii) : bool :=
  (Ascii.eqb c " " || Ascii.eqb c newline || Ascii.eqb c "009")%char.

Definition ends_sentence (c : ascii) : bool :=
  (Ascii.eqb c "." || Ascii.eqb c "!" || Ascii.eqb c "?")%char.

(** Modelled from the spec: 4.1's paragraph and sentence boundaries, whose
    code is missing.  A cut before position [pos] falls on a boundary when
    the text before it ends a paragraph (a blank line) or a sentence (a full
    stop, exclamation or question mark, then white space). *)
Definition is_boundary (doc : text) (pos : nat) : bool :=
  match pos with
  | S (S p) =>
      match doc !! p, doc !! S p with
      | Some a, Some b =>
          (Ascii.eqb a newline && Ascii.eqb b newline) || (ends_sentence a && is_space b)
      | _, _ => false
      end
  | _ => false
  end.

(** Modelled from the spec: the search for a boundary within the size
    budget (4.1), whose code is missing: the last boundary among the positions
    [lo + n], ..., [lo + 1]. *)
Fixpoint last_boundary (doc : text) (lo n : nat) : option nat :=
  match n with
  | 0 => None
  | S n' => if is_boundary doc (lo + n) then Some (lo + n) else last_boundary doc lo n'
  end.

(** Modelled from the spec: where 4.1 ends a chunk that starts at [start],
    whose code is missing: on the last boundary within the size budget, and by
    a hard character count when there is none.  A boundary that would leave
    the chunk no longer than the overlap is no use: the next chunk would not
    start further on. *)
Definition choose_cut (cfg : config) (doc : text) (start : nat) : nat :=
  default (start + max_chunk_size cfg)
    (last_boundary doc (start + overlap_size cfg) (max_chunk_size cfg - overlap_size cfg)).

Definition is_heading (line : text) : bool :=
  match line with
  | c :: _ => Ascii.eqb c "#"
  | [] => false
  end.

Fixpoint lines (doc : text) : list text :=
  match doc with
  | [] => [[]]
  | c :: rest =>
      if Ascii.eqb c newline then [] :: lines rest
      else match lines rest with
           | l :: ls => (c :: l) :: ls
           | [] => [[c]]
           end
  end.

Fixpoint heading_title (line : text) : text :=
  match line with
  | c :: rest => if (Ascii.eqb c "#" || Ascii.eqb c " ")%char then heading_title rest else line
  | [] => []
  end.

(** The title of the last heading line that begins at or before [start];
    [offset] is where the first line of [ls] begins. *)
Fixpoint label_scan (ls : list text) (offset start : nat) (current : text) : text :=
  match ls with
  | [] => current
  | l :: rest =>
      if (start <? offset)%nat then current
      else label_scan rest (offset + length l + 1) start
             (if is_heading l then heading_title l else current)
  end.

(** Modelled from the spec: 4.1's best-effort section label, whose code is
    missing: the title of the nearest heading that begins no later than the
    chunk does, empty when there is none. *)
Definition section_label (doc : text) (start : nat) : text :=
  label_scan (lines doc) 0 start [].

(** Modelled from the spec: the loop of the chunk operation of 4.1, whose
    code is missing, from position [start] and sequence number [seq]:
    while text is left, the rest is taken whole when it fits, and otherwise a
    chunk is cut and the next one starts [overlap_size] characters before the
    cut.  [fuel] bounds the number of rounds; [chunk] below gives enough. *)
Fixpoint chunk_from (cfg : config) (src : string) (doc : text)
    (fuel start seq : nat) : list Chunk :=
  match fuel with
  | 0 => []
  | S fuel' =>
      if (length doc <=? start)%nat then []
      else if (length doc - start <=? max_chunk_size cfg)%nat then
        [MkChunk src (section_label doc start) (drop start doc) seq (overlap_size cfg)]
      else
        let cut := choose_cut cfg doc start in
        MkChunk src (section_label doc start) (take (cut - start) (drop start doc))
                seq (overlap_size cfg)
        :: chunk_from cfg src doc fuel' (cut - overlap_size cfg) (S seq)
  end.

(** Modelled from the spec: the chunk operation of 4.1, whose code is
    missing, for a configuration that passed [validate].  Every chunk but the
    last is followed by one that starts [overlap_size] characters before its
    end, and the last one runs to the end of the document.  Each round moves
    the start forward, so [length doc] rounds are enough. *)
Definition chunk (cfg : config) (src : string) (doc : text) : list Chunk :=
  chunk_from cfg src doc (length doc) 0 0.

End Chunker.

(* --------------------------------------------------------------------- *)
(** ** Vector Index (specification 3 and 4.3) *)
(* --------------------------------------------------------------------- *)

Module VectorIndex.

Abbreviation vector := (list Q).

(** Modelled from the spec: the payload of an Embedding Record, whose code
    is missing: source id, section, chunk text, chunk sequence. *)
Record payload : Type := MkPayload {
  source_id : string;
  section : text;
  chunk_text : text;
  chunk_sequence : nat
}.

(** Modelled from the spec: what [upsert] is given, whose code is missing: a
    vector and its payload under the caller's id.  The id is the
    deterministic chunk id of 4.6 and 6, made of source and sequence. *)
Record record : Type := MkRecord {
  record_id : string * nat;
  record_vector : vector;
  record_payload : payload
}.

(** The collection, keyed by chunk id. *)
Abbreviation collection := (gmap (string * nat) (vector * payload)).

(** Modelled from the spec: [upsert] of 4.3, whose code is missing: each
    record is stored under its id, in place of what the id held. *)
Definition upsert (records : list record) (c : collection) : collection :=
  foldl (fun m r => <[record_id r := (record_vector r, record_payload r)]> m) c records.

(** Modelled from the spec: the ordering of 4.3, whose code is missing:
    insertion into a list kept in descending order of score. *)
Fixpoint insert_desc (x : payload * Q) (l : list (payload * Q)) : list (payload * Q) :=
  match l with
  | [] => [x]
  | y :: rest =>
      if Qle_bool (snd y) (snd x) then x :: y :: rest
      else y :: insert_desc x rest
  end.

Definition sort_desc (l : list (payload * Q)) : list (payload * Q) :=
  foldr insert_desc [] l.

(** [a] comes no later than [b] in descending order of score. *)
Definition score_desc (a b : payload * Q) : Prop := (snd b <= snd a)%Q.

Definition in_chapter (chapter_filter : option string) (p : payload) : bool :=
  match chapter_filter with
  | Some chapter => String.eqb (source_id p) chapter
  | None => true
  end.

Section WithSimilarity.

(** The similarity measure is the vector store's own. *)
Variable similarity : vector -> vector -> Q.

(** Modelled from the spec: the scoring behind [search] (4.3 and step 3 of
    4.5), whose code is missing: every stored record within the chapter
    filter, with its score against the query vector. *)
Definition scored (c : collection) (query_vector : vector)
    (chapter_filter : option string) : list (payload * Q) :=
  map (fun e : vector * payload => (snd e, similarity query_vector (fst e)))
      (List.filter (fun e : vector * payload => in_chapter chapter_filter (snd e))
                   (map snd (map_to_list c))).

(** Modelled from the spec: [search] of 4.3, whose code is missing: the
    entries that reach [min_score], by descending score, cut after [top_k],
    within the chapter when a filter is given. *)
Definition search (c : collection) (query_vector : vector) (top_k : nat)
    (min_score : Q) (chapter_filter : option string) : list (payload * Q) :=
  take top_k
    (sort_desc
       (List.filter (fun e : payload * Q => Qle_bool min_score (snd e))
                    (scored c query_vector chapter_filter))).

End WithSimilarity.

End VectorIndex.

(* --------------------------------------------------------------------- *)
(** ** Embedding and Completion clients (specification 4.2 and 4.4) *)
(* --------------------------------------------------------------------- *)

Module Clients.
Import VectorIndex.

Inductive ProviderUnavailable : Type := RetriesExhausted.

(** Modelled from the spec: the two transport wrappers of 4.2 and 4.4, whose
    code is missing, by what a call settles to once the retries are over. *)
Record providers : Type := MkProviders {
  embed : text -> ProviderUnavailable + vector;
  generate : text -> text -> nat -> Q -> ProviderUnavailable + text
}.

(** Modelled from the spec: [embed_batch] of 4.2, whose code is missing: a
    vector per text, in the order of the input. *)
Fixpoint embed_batch (p : providers) (texts : list text)
    : ProviderUnavailable + list vector :=
  match texts with
  | [] => inr []
  | t :: rest =>
      match embed p t with
      | inl e => inl e
      | inr v =>
          match embed_batch p rest with
          | inl e => inl e
          | inr vs => inr (v :: vs)
          end
      end
  end.

End Clients.

(* --------------------------------------------------------------------- *)
(** ** RAG Orchestrator (specification 3 and 4.5) *)
(* --------------------------------------------------------------------- *)

Module Orchestrator.
Import VectorIndex Clients.

Definition lit (s : string) : text := list_ascii_of_string s.

(** Modelled from the spec: the retrieval and generation settings, whose
    code is missing, with the defaults of 4.5 and of the implementation
    summary (five chunks, threshold 0.7, 1000 tokens, temperature 0.7). *)
Record settings : Type := MkSettings {
  top_k : nat;
  min_score : Q;
  max_tokens : nat;
  temperature : Q
}.

Definition default_settings : settings := MkSettings 5 (7 # 10) 1000 (7 # 10).

(** Modelled from the spec: a source citation, whose code is missing:
    chapter, section, quoted excerpt. *)
Record citation : Type := MkCitation {
  chapter : string;
  cited_section : text;
  quote : text
}.

Inductive feedback_kind : Type := helpful | not_helpful | incorrect.

(** Modelled from the spec: the persisted Chat Message of the data model,
    whose code is missing. *)
Record ChatMessage : Type := MkChatMessage {
  message_id : string;
  owner : option string;
  query_text : text;
  response_text : text;
  message_sources : list citation;
  message_confidence : Q;
  response_time_ms : nat;
  created_at : nat;
  feedback : option feedback_kind
}.

(** Modelled from the spec: what [query] returns, whose code is missing:
    answer, sources, confidence, latency. *)
Record answer : Type := MkAnswer {
  answer_text : text;
  sources : list citation;
  confidence : Q;
  latency : nat
}.

Inductive GenerationFailed : Type := ProviderFailed (cause : ProviderUnavailable).

(** The calls the Orchestrator makes on its collaborators, as they happen. *)
Inductive call : Type :=
| CallEmbedding (t : text)
| CallSearch (v : vector) (k : nat) (threshold : Q) (chapter_filter : option string)
| CallCompletion (system_prompt user_prompt : text) (tokens : nat) (temp : Q)
| CallStore (m : ChatMessage).

(** What the request brings besides the question: the id and creation time
    the store will give the message, the asking user, the measured latency. *)
Record request_info : Type := MkRequestInfo {
  fresh_id : string;
  asked_by : option string;
  asked_at : nat;
  elapsed_ms : nat
}.

Definition NO_RELEVANT_CONTENT : text := lit "No relevant content found.".

Definition SYSTEM_PROMPT : text :=
  lit "Answer the question using only the context below.".

Definition cite (e : payload * Q) : citation :=
  MkCitation (source_id (fst e)) (section (fst e)) (chunk_text (fst e)).

(** Modelled from the spec: step 5 of 4.5, whose code is missing: a
    retrieved chunk as it enters the prompt, tagged with source and section. *)
Definition tagged (e : payload * Q) : text :=
  lit "[" ++ lit (source_id (fst e)) ++ lit " / " ++ section (fst e) ++ lit "] "
    ++ chunk_text (fst e) ++ [newline].

Definition user_prompt (context : list (payload * Q)) (question : text) : text :=
  concat (map tagged context) ++ question.

(** Modelled from the spec: step 1 of 4.5, whose code is missing: the
    selected text first, then the question. *)
Definition search_text (question : text) (selected_text : option text) : text :=
  match selected_text with
  | Some selected => selected ++ lit " " ++ question
  | None => question
  end.

(** Modelled from the spec: step 7 of 4.5, whose code is missing:
    [min(top_score, 1.0)]. *)
Definition confidence_of (top_score : Q) : Q :=
  if Qle_bool top_score 1 then top_score else 1.

Section WithCollaborators.

Variable similarity : vector -> vector -> Q.
Variable p : providers.
Variable cfg : settings.

(** Modelled from the spec: the query operation of 4.5, whose code is
    missing, steps 1 to 9, with the failure policy of the same paragraph: a
    client failure surfaces as [GenerationFailed] and nothing is persisted.
    The result comes with the calls made, in order, and the Relational
    Store's messages afterwards. *)
Definition query (idx : collection) (stored : list ChatMessage) (info : request_info)
    (question : text) (chapter_filter : option string) (selected_text : option text)
    : list call * (GenerationFailed + answer) * list ChatMessage :=
  let effective := search_text question selected_text in
  match embed p effective with
  | inl e => ([CallEmbedding effective], inl (ProviderFailed e), stored)
  | inr v =>
      let retrieval :=
        [CallEmbedding effective;
         CallSearch v (top_k cfg) (min_score cfg) chapter_filter] in
      match search similarity idx v (top_k cfg) (min_score cfg) chapter_filter with
      | [] =>
          (retrieval, inr (MkAnswer NO_RELEVANT_CONTENT [] 0 (elapsed_ms info)), stored)
      | top :: others =>
          let context := top :: others in
          let prompt := user_prompt context question in
          let generation :=
            CallCompletion SYSTEM_PROMPT prompt (max_tokens cfg) (temperature cfg) in
          match generate p SYSTEM_PROMPT prompt (max_tokens cfg) (temperature cfg) with
          | inl e => (retrieval ++ [generation], inl (ProviderFailed e), stored)
          | inr generated =>
              let cited := map cite context in
              let conf := confidence_of (snd top) in
              let m :=
                MkChatMessage (fresh_id info) (asked_by info) question generated cited
                              conf (elapsed_ms info) (asked_at info) None in
              (retrieval ++ [generation; CallStore m],
               inr (MkAnswer generated cited conf (elapsed_ms info)),
               stored ++ [m])
          end
      end
  end.

End WithCollaborators.

Definition calls_completion (c : call) : bool :=
  match c with CallCompletion _ _ _ _ => true | _ => false end.

End Orchestrator.

(* --------------------------------------------------------------------- *)
(** ** Ingestion Job (specification 4.6) *)
(* --------------------------------------------------------------------- *)

Module Ingestion.
Import Chunker VectorIndex Clients.

(** Modelled from the spec: what [run] reports, whose code is missing. *)
Record report : Type := MkReport {
  documents_processed : nat;
  chunks_ingested : nat
}.

(** Modelled from the spec: the record made of a chunk and its vector,
    whose code is missing; the upsert key is derived from source and
    sequence. *)
Definition to_record (c : Chunk) (v : vector) : record :=
  MkRecord (Chunker.source c, Chunker.sequence c) v
           (MkPayload (Chunker.source c) (Chunker.section c)
                      (Chunker.chunk_text c) (Chunker.sequence c)).

Section WithSetup.

Variable cfg : Chunker.config.

(** Modelled from the spec: the job of 4.6, whose code is missing: each
    document is chunked, its chunks are embedded as one batch and upserted.
    An embedding failure ends the run; what was upserted before stays.  The
    collection is not cleared first: that a second run adds nothing rests on
    the ids, as 4.6 has it. *)
Fixpoint ingest (p : providers) (docs : list (string * text)) (idx : collection)
    (done : report) : (ProviderUnavailable + report) * collection :=
  match docs with
  | [] => (inr done, idx)
  | (src, doc) :: rest =>
      let chunks := Chunker.chunk cfg src doc in
      match embed_batch p (map Chunker.chunk_text chunks) with
      | inl e => (inl e, idx)
      | inr vectors =>
          ingest p rest (upsert (zip_with to_record chunks vectors) idx)
                 (MkReport (S (documents_processed done))
                           (chunks_ingested done + length chunks))
      end
  end.

(** Modelled from the spec: [run] of 4.6, whose code is missing: the job
    over all documents, reporting documents processed and chunks ingested. *)
Definition run (p : providers) (docs : list (string * text)) (idx : collection)
    : (ProviderUnavailable + report) * collection :=
  ingest p docs idx (MkReport 0 0).

End WithSetup.

End Ingestion.

End Backend.
(* ===================================================================== *)
(** * What the theorems speak of *)
(* ===================================================================== *)

Module Expected.
Import Js Api Chatbot.

Section WithHost.
Context `{Host}.

(** What a call of the client settles to, read off the reply to its one
    request: [fallback] is the text of the Error thrown for a reply that is
    not ok and brings no usable [message]. *)
Definition settle (fallback : string) (reply : exn + response) : completion jsval :=
  match reply with
  | inl e => Throw e
  | inr resp =>
      match json_body resp with
      | inl e => Throw e
      | inr parsed =>
          if ok resp then Normal parsed
          else match get_prop parsed "message" with
               | inl e => Throw e
               | inr message => Throw (new_Error (or_else message (JStr fallback)))
               end
      end
  end.

(** A call of the client that rejects every reply that is not ok: such a
    reply makes the call throw, the Error being made of the body's [message]
    when that is there and truthy and of [fallback] when it is not; and the
    call returns a value only when the reply is ok and the value is its parsed
    body. *)
Definition rejects_unless_ok (call : Async jsval) (req : request)
    (fallback : string) : Prop :=
  forall net : network,
    (forall resp, net req = inr resp -> ok resp = false ->
       (exists e, outcome call net = Throw e) /\
       (forall parsed message,
           json_body resp = inr parsed -> get_prop parsed "message" = inr message ->
           outcome call net =
             Throw (if truthy message then new_Error message
                    else MkExn "Error" fallback))) /\
    (forall v, outcome call net = Normal v ->
       exists resp, net req = inr resp /\ ok resp = true /\ json_body resp = inr v).

(** The body of a chat request that asks [query] and scopes nothing. *)
Definition unscoped_body (query : string) : option jsval :=
  Some (JObj [("query", JStr query); ("chapter", JNull);
              ("selected_text", JNull); ("stream", JBool false)]).

(** [msg'] is [msg] but for its feedback. *)
Definition same_but_feedback (msg msg' : message) : Prop :=
  type msg' = type msg /\ content msg' = content msg /\ sources msg' = sources msg /\
  confidence msg' = confidence msg /\ messageId msg' = messageId msg /\
  timestamp msg' = timestamp msg.

(** A primitive value: anything but an array or an object. *)
Definition primitive (v : jsval) : bool :=
  match v with
  | JArr _ | JObj _ => false
  | _ => true
  end.

(** [a] is the primitive [b]: the same [undefined], [null], boolean or
    string, or the same number as doubles are compared ([NaN] is no number's
    same, the two zeros are each other's).  For a primitive [b] this is when
    [a === b] holds. *)
Definition same_primitive (a b : jsval) : Prop :=
  match a, b with
  | JNum x, JNum y => PrimFloat.eqb x y = true
  | _, _ => a = b
  end.

(** A request of the widget is the chat request of an unscoped question or
    the PUT of a feedback. *)
Definition widget_request (r : request) : Prop :=
  (exists query, r = chat_request (JStr query) JUndefined JUndefined) \/
  (exists id feedbackType, r = feedback_request id feedbackType).

End WithHost.

End Expected.

(** ** A widget to run *)

Module Demo.
Import Js Api Chatbot Expected.

(** A host to run examples on: a browser page (no [process]), numbers
    printed by a stub, and [trim] on blanks. *)
Fixpoint trim_left (s : string) : string :=
  match s with
  | String c rest => if Ascii.eqb c " " then trim_left rest else s
  | EmptyString => s
  end.

Definition rev_string (s : string) : string :=
  string_of_list_ascii (rev (list_ascii_of_string s)).

Definition browser : Host :=
  {| process := None;
     number_to_string := fun _ => "0";
     trim := fun s => rev_string (trim_left (rev_string (trim_left s))) |}.

Definition reply (code : Z) (parsed : jsval) : network :=
  fun _ => inr (MkResponse code (inr parsed)).

Definition answered : jsval :=
  JObj [("id", JStr "m1"); ("query", JStr "What is SLAM?");
        ("response", JStr "Simultaneous localization and mapping.");
        ("sources", JArr []); ("confidence", JNum 0.5%float);
        ("response_time_ms", JNum 12%float); ("created_at", JStr "2025-12-09T10:30:00Z")].

Definition bot_message (id : string) : message :=
  MkMessage "bot" (JStr "An answer.") (JArr []) (JNum 0.5%float) (JStr id)
            (DateOf (JStr "2025-12-09T10:30:00Z")) JUndefined.

Definition two_answers : state :=
  MkState true [bot_message "m1"; bot_message "m2"] "" false None.

Definition asking : state :=
  MkState true [] "  What is SLAM? " false None.

End Demo.

(** ** Chunks put back together *)

Module Coverage.
Import Backend Backend.Chunker.

(** The text the chunks of one document stand for: the first chunk whole,
    then each following chunk without the [overlap] characters it repeats. *)
Definition stitch (chunks : list Chunk) : text :=
  match chunks with
  | [] => []
  | c :: rest => chunk_text c ++ concat (map (fun c' => drop (overlap c') (chunk_text c')) rest)
  end.

End Coverage.

(** ** The ids of the Vector Index *)

Module Ids.
Import Backend Backend.Chunker Backend.VectorIndex.

(** The ids a list of records is stored under. *)
Definition record_ids (records : list record) : gset (string * nat) :=
  list_to_set (map record_id records).

(** The ids of the chunks of a list of documents. *)
Fixpoint chunk_ids (cfg : config) (docs : list (string * text)) : gset (string * nat) :=
  match docs with
  | [] => ∅
  | (src, doc) :: rest =>
      list_to_set (map (fun c => (source c, sequence c)) (chunk cfg src doc))
      ∪ chunk_ids cfg rest
  end.

End Ids.

(** ** A pipeline to run *)

Module PipelineDemo.
Import Backend Backend.Chunker Backend.VectorIndex Backend.Clients
       Backend.Orchestrator Backend.Ingestion.

(** Dot product, the similarity of unit vectors. *)
Fixpoint dot (a b : vector) : Q :=
  match a, b with
  | x :: a', y :: b' => (x * y + dot a' b')%Q
  | _, _ => 0%Q
  end.

Definition unit_providers : providers :=
  MkProviders (fun _ => inr [1%Q; 0%Q]) (fun _ _ _ _ => inr (lit "An answer.")).

Definition failing_providers : providers :=
  MkProviders (fun _ => inl RetriesExhausted) (fun _ _ _ _ => inl RetriesExhausted).

(** A corpus whose best match for any question scores 0.42. *)
Definition robotics_index : collection :=
  {[ ("week-1", 0) :=
       ([42 # 100; 0%Q], MkPayload "week-1" (lit "Robots") (lit "Robots sense and act.") 0) ]}.

(** A corpus with a chunk that scores 0.91 against any question. *)
Definition kinematics_index : collection :=
  {[ ("week-7", 2) :=
       ([91 # 100; 0%Q],
        MkPayload "week-7" (lit "Kinematics")
                  (lit "Forward kinematics computes the pose of the end effector.") 2) ]}.

Definition swallow : text :=
  lit "What is the airspeed velocity of an unladen swallow?".

Definition this_request : request_info := MkRequestInfo "m1" None 0 7.

Definition alphabet : text := lit "abcdefghijklmnopqrstuvwxyz".

Definition thirty_three : text := lit "abcdefghijklmnopqrstuvwxyz0123456".

Definition three_documents : list (string * text) :=
  [("week-1", thirty_three); ("week-2", thirty_three); ("week-3", thirty_three)].

End PipelineDemo.


(* ===================================================================== *)
(** * More of the widget: what it draws and what a submission leaves *)
(* ===================================================================== *)

Module View.
Import Js Api Chatbot.

(** [{message.feedback && (...)}]: the thanks drawn under a message. *)
Definition shows_confirmation (msg : message) : bool := truthy (feedback msg).

Section WithHost.
Context `{Host}.

(** [disabled={isLoading || !inputValue.trim()}] on the send button. *)
Definition send_disabled (st : state) : bool :=
  isLoading st || String.eqb (trim (inputValue st)) "".

End WithHost.

End View.

Module Submission.
Import Js Api Chatbot.

(** The [userMessage] of [handleSubmit]. *)
Definition userMessage (query : string) (sent_at : float) : message :=
  MkMessage "user" (JStr query) JUndefined JUndefined JUndefined
            (DateNow sent_at) JUndefined.

(** The [errorMessage] of [handleSubmit]. *)
Definition errorMessage (failed_at : float) : message :=
  MkMessage "error"
    (JStr "Sorry, I encountered an error. Please make sure the backend server is running and try again.")
    JUndefined JUndefined JUndefined (DateNow failed_at) JUndefined.

(** [response.name] on a reply whose properties can be read. *)
Definition field (response : jsval) (name : string) : jsval :=
  match get_prop response name with
  | inr v => v
  | inl _ => JUndefined
  end.

(** The [botMessage] of [handleSubmit], made of the reply. *)
Definition botMessage (response : jsval) : message :=
  MkMessage "bot" (field response "response") (field response "sources")
            (field response "confidence") (field response "id")
            (DateOf (field response "created_at")) JUndefined.

(** [err.message || 'Failed to get response. Please try again.']. *)
Definition error_text (err : exn) : string :=
  if String.eqb (exn_message err) "" then "Failed to get response. Please try again."
  else exn_message err.

(** What makes [handleSubmit] take its [catch] branch: the call threw, or
    the reply it returned has no properties to read ([null]). *)
Definition chat_failure (c : completion jsval) : option exn :=
  match c with
  | Throw e => Some e
  | Normal response =>
      match get_prop response "response" with
      | inl e => Some e
      | inr _ => None
      end
  end.

(** The events of a call of the client that made request [req] and settled
    as [c]: the request, and the logged error when it threw. *)
Definition logged (label : string) (req : request) (c : completion jsval) : list event :=
  Fetch req :: match c with
               | Throw e => [ConsoleError label e]
               | Normal _ => []
               end.

(** The two feedback kinds the widget has a button for. *)
Definition button_feedback (helpful : bool) : jsval :=
  JStr (if helpful then "helpful" else "not_helpful").

End Submission.

(** ** More to run the widget on *)

Module MoreDemo.
Import Js Api Chatbot Expected Demo.

(** No network: every [fetch] rejects. *)
Definition failed_to_fetch : exn := MkExn "TypeError" "Failed to fetch".
Definition offline : network := fun _ => inl failed_to_fetch.

(** A gateway's error page: status 502 and a body that is not JSON. *)
Definition not_json : exn := MkExn "SyntaxError" "Unexpected token '<'".
Definition bad_gateway : response := MkResponse 502 (inl not_json).
Definition gateway_down : network := fun _ => inr bad_gateway.

Definition feedback_saved : jsval :=
  JObj [("id", JStr "m1"); ("feedback", JStr "helpful")].

Definition blank : state := MkState true [] "   " false None.

Definition chatting : state :=
  MkState true [bot_message "m0"] "What is SLAM?" false None.

End MoreDemo.

(* ===================================================================== *)
(** * The API client *)
(* ===================================================================== *)

Section ApiFacts.
Import Js Api Expected.
Context `{Host}.

Lemma queryChatbot_run query chapter selectedText net :
  requests (trace (queryChatbot query chapter selectedText) net) =
    [chat_request query chapter selectedText] /\
  outcome (queryChatbot query chapter selectedText) net =
    settle "Failed to get response from chatbot"
           (net (chat_request query chapter selectedText)).
Proof.
  unfold trace, outcome, queryChatbot, try_catch, bind, fetch, settle.
  destruct (net _) as [e | resp]; cbn; [split; reflexivity |].
  destruct (json_body resp) as [e | parsed], (ok resp); cbn; try (split; reflexivity).
  destruct (get_prop parsed "message"); split; reflexivity.
Qed.

Lemma submitFeedback_run messageId feedback net :
  requests (trace (submitFeedback messageId feedback) net) =
    [feedback_request messageId feedback] /\
  outcome (submitFeedback messageId feedback) net =
    settle "Failed to submit feedback" (net (feedback_request messageId feedback)).
Proof.
  unfold trace, outcome, submitFeedback, try_catch, bind, fetch, settle.
  destruct (net _) as [e | resp]; cbn; [split; reflexivity |].
  destruct (json_body resp) as [e | parsed], (ok resp); cbn; try (split; reflexivity).
  destruct (get_prop parsed "message"); split; reflexivity.
Qed.

Lemma checkHealth_run net :
  requests (trace checkHealth net) = [health_request] /\
  outcome checkHealth net =
    match net health_request with
    | inl e => Throw e
    | inr resp => match json_body resp with inl e => Throw e | inr parsed => Normal parsed end
    end.
Proof.
  unfold trace, outcome, checkHealth, try_catch, bind, fetch.
  destruct (net _) as [e | resp]; cbn; [split; reflexivity |].
  destruct (json_body resp); split; reflexivity.
Qed.

Lemma default_param_defined arg dflt :
  dflt <> JUndefined -> default_param arg dflt <> JUndefined.
Proof. destruct arg; cbn; congruence. Qed.

Lemma stringify_field k v rest :
  v <> JUndefined ->
  stringify_value (JObj ((k, v) :: rest)) =
  match stringify_value (JObj rest) with
  | JObj fs => JObj ((k, stringify_value v) :: fs)
  | other => other
  end.
Proof. destruct v; cbn; congruence. Qed.

(** C3. Whatever [queryChatbot] is called with (a string to ask, anything
    or nothing for the chapter and the selected text) and whatever the network
    does, it sends one request: a POST to [API_BASE_URL/chat] whose JSON body
    is an object with the four fields [query], [chapter], [selected_text] and
    [stream], in that order and no other, [stream] being [false]. *)
Theorem queryChatbot_request (query : string) (chapter selectedText : jsval)
    (net : network) :
  requests (trace (queryChatbot (JStr query) chapter selectedText) net) =
    [MkRequest (API_BASE_URL +:+ "/chat") "POST" [("Content-Type", "application/json")]
       (Some (JObj [("query", JStr query);
                    ("chapter", stringify_value (default_param chapter JNull));
                    ("selected_text", stringify_value (default_param selectedText JNull));
                    ("stream", JBool false)]))].
Proof.
  destruct (queryChatbot_run (JStr query) chapter selectedText net) as [-> _].
  unfold chat_request, chat_payload, JSON_stringify, json_headers.
  rewrite stringify_field by discriminate.
  rewrite stringify_field by (apply default_param_defined; discriminate).
  rewrite stringify_field by (apply default_param_defined; discriminate).
  reflexivity.
Qed.

Lemma settle_rejects_unless_ok call req fallback :
  (forall net, outcome call net = settle fallback (net req)) ->
  rejects_unless_ok call req fallback.
Proof.
  intros Hrun net. rewrite Hrun. unfold settle. split.
  - intros resp -> Hok. rewrite Hok. split.
    + destruct (json_body resp) as [e | parsed]; [eauto |].
      destruct (get_prop parsed "message"); eauto.
    + intros parsed message -> ->. unfold or_else.
      destruct (truthy message); reflexivity.
  - intros v Hv. destruct (net req) as [e | resp]; [discriminate |].
    exists resp. destruct (json_body resp) as [e | parsed]; [discriminate |].
    destruct (ok resp).
    + injection Hv as ->. auto.
    + destruct (get_prop parsed "message"); discriminate.
Qed.

(** C8. [queryChatbot] and [submitFeedback] reject a reply that is not ok:
    when [fetch] resolves with a status outside 200-299 the call throws, and
    the Error carries the body's [message] when the body has one (a truthy
    one, as [||] reads it) and the fixed text otherwise; the call returns
    normally only for an ok reply whose body parses as JSON, and then with
    that body. *)
Theorem client_rejects_unless_ok :
  (forall query chapter selectedText,
      rejects_unless_ok (queryChatbot query chapter selectedText)
                        (chat_request query chapter selectedText)
                        "Failed to get response from chatbot") /\
  (forall messageId feedback,
      rejects_unless_ok (submitFeedback messageId feedback)
                        (feedback_request messageId feedback)
                        "Failed to submit feedback").
Proof.
  split; intros; apply settle_rejects_unless_ok; intros net.
  - apply queryChatbot_run.
  - apply submitFeedback_run.
Qed.

(** C9. [checkHealth] does not look at the status: whatever the status of
    the reply, a body that parses as JSON is what the call returns; it throws
    only what [fetch] rejected with or what parsing the body failed with.  Not
    so [queryChatbot] and [submitFeedback], which throw on the same reply when
    its status is not ok. *)
Theorem checkHealth_ignores_status (net : network) :
  (forall resp parsed,
      net health_request = inr resp -> json_body resp = inr parsed ->
      outcome checkHealth net = Normal parsed) /\
  (forall e, outcome checkHealth net = Throw e ->
      net health_request = inl e \/
      exists resp, net health_request = inr resp /\ json_body resp = inl e) /\
  (forall resp query chapter selectedText messageId feedback,
      ok resp = false ->
      (net (chat_request query chapter selectedText) = inr resp ->
       exists e, outcome (queryChatbot query chapter selectedText) net = Throw e) /\
      (net (feedback_request messageId feedback) = inr resp ->
       exists e, outcome (submitFeedback messageId feedback) net = Throw e)).
Proof.
  destruct (checkHealth_run net) as [_ ->]. split; [| split].
  - intros resp parsed -> ->. reflexivity.
  - intros e He. destruct (net health_request) as [e' | resp].
    + left. congruence.
    + right. exists resp. destruct (json_body resp); [split; congruence | discriminate].
  - intros resp query chapter selectedText messageId feedback Hnot_ok. split; intros Hnet.
    + destruct (settle_rejects_unless_ok _ _ _
                  (fun n => proj2 (queryChatbot_run query chapter selectedText n)) net)
        as [Hthrows _].
      destruct (Hthrows resp Hnet Hnot_ok) as [He _]. exact He.
    + destruct (settle_rejects_unless_ok _ _ _
                  (fun n => proj2 (submitFeedback_run messageId feedback n)) net)
        as [Hthrows _].
      destruct (Hthrows resp Hnet Hnot_ok) as [He _]. exact He.
Qed.

End ApiFacts.

(* ===================================================================== *)
(** * The chat widget *)
(* ===================================================================== *)

Section ChatbotFacts.
Import Js Api Chatbot Expected.
Context `{Host}.

Lemma trace_bind {A B} (m : Async A) (k : A -> Async B) net :
  trace (bind m k) net =
  trace m net ++ match outcome m net with
                 | Normal a => trace (k a) net
                 | Throw _ => []
                 end.
Proof.
  unfold trace, outcome, bind. destruct (m net) as [t [a | e]]; cbn.
  - destruct (k a net); reflexivity.
  - symmetry. apply app_nil_r.
Qed.

Lemma trace_try_catch {A} (body : Async A) (handler : exn -> Async A) net :
  trace (try_catch body handler) net =
  trace body net ++ match outcome body net with
                    | Normal _ => []
                    | Throw e => trace (handler e) net
                    end.
Proof.
  unfold trace, outcome, try_catch. destruct (body net) as [t [a | e]]; cbn.
  - symmetry. apply app_nil_r.
  - destruct (handler e net); reflexivity.
Qed.

Lemma outcome_try_catch {A} (body : Async A) (handler : exn -> Async A) net :
  outcome (try_catch body handler) net =
  match outcome body net with
  | Normal a => Normal a
  | Throw e => outcome (handler e) net
  end.
Proof.
  unfold outcome, try_catch. destruct (body net) as [t [a | e]]; cbn; [reflexivity |].
  destruct (handler e net); reflexivity.
Qed.

Lemma outcome_bind {A B} (m : Async A) (k : A -> Async B) net :
  outcome (bind m k) net =
  match outcome m net with
  | Normal a => outcome (k a) net
  | Throw e => Throw e
  end.
Proof.
  unfold outcome, bind. destruct (m net) as [t [a | e]]; cbn; [| reflexivity].
  destruct (k a net); reflexivity.
Qed.

Lemma requests_app (t t' : list event) :
  requests (t ++ t') = requests t ++ requests t'.
Proof. apply omap_app. Qed.

Lemma requests_prevent (t : list event) :
  requests (PreventDefault :: t) = requests t.
Proof. reflexivity. Qed.

(** Reading the reply's fields sends nothing. *)
Lemma reading_reply_is_silent (st : state) (response : jsval) net :
  trace
    (let* r_response := await (get_prop response "response") in
     let* r_sources := await (get_prop response "sources") in
     let* r_confidence := await (get_prop response "confidence") in
     let* r_id := await (get_prop response "id") in
     let* r_created_at := await (get_prop response "created_at") in
     ret (setMessages
            (fun prev =>
               prev ++ [MkMessage "bot" r_response r_sources r_confidence r_id
                                  (DateOf r_created_at) JUndefined]) st)) net = [].
Proof. destruct response; reflexivity. Qed.

(** [handleSubmit] sends nothing for a blank input or while a reply is
    awaited, and otherwise the one request of [queryChatbot(query)]. *)
Lemma handleSubmit_requests sent_at failed_at st net :
  requests (trace (handleSubmit sent_at failed_at st) net) =
    if String.eqb (trim (inputValue st)) "" || isLoading st then []
    else [chat_request (JStr (trim (inputValue st))) JUndefined JUndefined].
Proof.
  unfold handleSubmit. rewrite trace_bind. cbn [emit trace outcome fst snd app].
  destruct (String.eqb (trim (inputValue st)) "" || isLoading st); [reflexivity |].
  rewrite requests_prevent, trace_bind, trace_try_catch, trace_bind.
  rewrite !requests_app.
  destruct (queryChatbot_run (JStr (trim (inputValue st))) JUndefined JUndefined net)
    as [-> _].
  rewrite outcome_try_catch, outcome_bind.
  destruct (outcome (queryChatbot _ _ _) net) as [response | e].
  - rewrite reading_reply_is_silent. cbn.
    match goal with |- context [outcome ?m net] => destruct (outcome m net) end;
      reflexivity.
  - reflexivity.
Qed.

Lemma handleFeedback_requests id feedbackType st net :
  requests (trace (handleFeedback id feedbackType st) net) =
    [feedback_request id feedbackType].
Proof.
  unfold handleFeedback. rewrite trace_try_catch, trace_bind, !requests_app.
  destruct (submitFeedback_run id feedbackType net) as [-> _].
  rewrite outcome_bind.
  destruct (outcome (submitFeedback _ _) net); reflexivity.
Qed.

Lemma step_requests a st net :
  Forall widget_request (requests (trace (step a st) net)).
Proof.
  destruct a as [| value | sent_at failed_at | key shiftKey sent_at failed_at
                 | index helpful]; cbn [step].
  - constructor.
  - destruct (isOpen st); constructor.
  - destruct (isOpen st); [| constructor].
    rewrite handleSubmit_requests.
    destruct (_ || _); [constructor |].
    constructor; [left; eauto | constructor].
  - destruct (isOpen st); [| constructor]. unfold handleKeyDown.
    destruct (_ && _); [| constructor].
    rewrite trace_bind. cbn [emit trace outcome fst snd app].
    rewrite requests_prevent, handleSubmit_requests.
    destruct (_ || _); [constructor |].
    constructor; [left; eauto | constructor].
  - destruct (messages st !! index) as [msg |]; [| constructor].
    destruct (_ && _); [| constructor].
    rewrite handleFeedback_requests.
    constructor; [right; eauto | constructor].
Qed.

Lemma run_requests session st :
  Forall widget_request (requests (fst (run session st))).
Proof.
  revert st. induction session as [| [a net] rest IH]; intros st; cbn [run].
  - constructor.
  - pose proof (step_requests a st net) as Hstep. unfold trace in Hstep.
    destruct (step a st net) as [t [st' | e]]; cbn [fst] in Hstep.
    + specialize (IH st'). destruct (run rest st') as [t' final]. cbn [fst] in *.
      rewrite requests_app. apply Forall_app. split; assumption.
    + specialize (IH st). destruct (run rest st) as [t' final]. cbn [fst] in *.
      rewrite requests_app. apply Forall_app. split; assumption.
Qed.

(** C10. Whatever the user does to the widget and whatever the network
    answers, every POST the widget sends goes to [API_BASE_URL/chat] with a
    body made of the trimmed question, [chapter] null, [selected_text] null
    and [stream] false: [queryChatbot] is only ever called with the query. *)
Theorem widget_chat_requests_unscoped (session : list (action * network))
    (st : state) (r : request) :
  r ∈ requests (fst (run session st)) ->
  method r = "POST" ->
  exists query,
    r = chat_request (JStr query) JUndefined JUndefined /\
    url r = API_BASE_URL +:+ "/chat" /\
    body r = unscoped_body query.
Proof.
  intros Hin Hpost.
  pose proof (run_requests session st) as Hall.
  rewrite Forall_forall in Hall. 
  destruct (Hall r Hin) as [[query ->] | [id [feedbackType ->]]].
  - exists query. repeat split.
  - discriminate.
Qed.

Lemma handleFeedback_outcome id feedbackType st net :
  outcome (handleFeedback id feedbackType st) net =
    match outcome (submitFeedback id feedbackType) net with
    | Normal _ =>
        Normal (setMessages
                  (map (fun msg => if strict_eq (messageId msg) id
                                   then with_feedback feedbackType msg else msg)) st)
    | Throw _ => Normal st
    end.
Proof.
  unfold handleFeedback. rewrite outcome_try_catch, outcome_bind.
  destruct (outcome (submitFeedback _ _) net); reflexivity.
Qed.

(** A feedback call that fails leaves the widget as it was. *)
Lemma handleFeedback_failed id feedbackType st net e :
  outcome (submitFeedback id feedbackType) net = Throw e ->
  outcome (handleFeedback id feedbackType st) net = Normal st.
Proof. intros Hfail. rewrite handleFeedback_outcome, Hfail. reflexivity. Qed.

(** For a primitive id the comparison of [handleFeedback] holds exactly of
    the messages that carry that id. *)
Lemma strict_eq_primitive (a id : jsval) :
  primitive id = true ->
  (strict_eq a id = true <-> same_primitive a id).
Proof.
  intros Hid.
  destruct a as [| | b | x | s | items | fields],
           id as [| | b' | x' | s' | items' | fields'];
    cbn in *; try discriminate Hid;
    try (split; [intros [=] | intros [=]]; fail);
    try (split; intros; reflexivity);
    try (split; intros; assumption).
  - split; [intros Hb; f_equal; apply Bool.eqb_prop, Hb
           | intros [= ->]; apply Bool.eqb_reflx].
  - split; [intros Hs; f_equal; apply String.eqb_eq, Hs
           | intros [= ->]; apply String.eqb_refl].
Qed.

(** C4. When the feedback call for a message id succeeds, [handleFeedback]
    gives the feedback to the messages that carry that id and changes nothing
    else.  For an id that is a primitive (a string, as documented, or a number,
    a boolean, [null], [undefined]): every message whose [messageId] is that id
    has its feedback set and keeps every other field, every message whose
    [messageId] is not that id is the same as before, the list keeps its
    length and order, and the rest of the widget's state is untouched. *)
Theorem handleFeedback_updates_only_target (id feedbackType : jsval) (st : state)
    (net : network) (v : jsval) :
  primitive id = true ->
  outcome (submitFeedback id feedbackType) net = Normal v ->
  exists st',
    outcome (handleFeedback id feedbackType st) net = Normal st' /\
    isOpen st' = isOpen st /\ inputValue st' = inputValue st /\
    isLoading st' = isLoading st /\ error st' = error st /\
    length (messages st') = length (messages st) /\
    forall i msg, messages st !! i = Some msg ->
      exists msg', messages st' !! i = Some msg' /\
        (same_primitive (messageId msg) id ->
         feedback msg' = feedbackType /\ same_but_feedback msg msg') /\
        (~ same_primitive (messageId msg) id -> msg' = msg).
Proof.
  intros Hid Hok. rewrite handleFeedback_outcome, Hok.
  eexists. split; [reflexivity |]. cbn.
  repeat (split; [reflexivity |]).
  split; [apply length_map |].
  intros i msg Hmsg. rewrite list_lookup_fmap, Hmsg. cbn.
  eexists. split; [reflexivity |].
  pose proof (strict_eq_primitive (messageId msg) id Hid) as Hsame.
  destruct (strict_eq (messageId msg) id).
  - split; [intros _; repeat split |].
    intros Hnot. exfalso. apply Hnot, Hsame. reflexivity.
  - split; [| reflexivity].
    intros His. apply Hsame in His. discriminate His.
Qed.

(** In the widget, a click on a feedback button of the message with id
    [id] marks that message, whose buttons are then gone. *)
Lemma click_feedback_marks_message (index : nat) (helpful : bool) (st : state)
    (net : network) (msg : message) (id : string) (v : jsval) :
  isOpen st = true ->
  messages st !! index = Some msg ->
  shows_feedback_buttons msg = true ->
  messageId msg = JStr id ->
  outcome (submitFeedback (JStr id) (JStr (if helpful then "helpful" else "not_helpful")))
          net = Normal v ->
  exists st' msg',
    outcome (step (ClickFeedback index helpful) st) net = Normal st' /\
    messages st' !! index = Some msg' /\
    feedback msg' = JStr (if helpful then "helpful" else "not_helpful") /\
    shows_feedback_buttons msg' = false.
Proof.
  intros Hopen Hmsg Hshown Hid Hok. cbn [step].
  rewrite Hmsg, Hopen, Hshown, Hid. cbn [andb].
  rewrite handleFeedback_outcome, Hok.
  eexists _, _. split; [reflexivity |]. cbn.
  rewrite list_lookup_fmap, Hmsg. cbn. rewrite Hid. cbn.
  rewrite String.eqb_refl. split; [reflexivity |]. split; [reflexivity |].
  unfold shows_feedback_buttons. cbn.
  destruct helpful; cbn; apply andb_false_r.
Qed.

End ChatbotFacts.

(** ** The widget at work *)

Section Demonstrations.
Import Js Api Chatbot Expected Demo.
#[local] Existing Instance browser.

Example handleSubmit_appends_the_answer :
  outcome (handleSubmit 1%float 2%float asking) (reply 200 answered) =
  Normal (MkState true
            [MkMessage "user" (JStr "What is SLAM?") JUndefined JUndefined JUndefined
                       (DateNow 1%float) JUndefined;
             MkMessage "bot" (JStr "Simultaneous localization and mapping.") (JArr [])
                       (JNum 0.5%float) (JStr "m1")
                       (DateOf (JStr "2025-12-09T10:30:00Z")) JUndefined]
            "" false None).
Proof. vm_compute. reflexivity. Qed.

Example queryChatbot_throws_the_server_message :
  outcome (queryChatbot (JStr "hi") JUndefined JUndefined)
          (reply 500 (JObj [("message", JStr "Internal error")])) =
  Throw (MkExn "Error" "Internal error").
Proof. vm_compute. reflexivity. Qed.

Example checkHealth_returns_a_503_body :
  outcome checkHealth (reply 503 (JObj [("status", JStr "degraded")])) =
  Normal (JObj [("status", JStr "degraded")]).
Proof. vm_compute. reflexivity. Qed.

Lemma widget_chat_requests_unscoped_witness :
  exists query,
    chat_request (JStr "What is SLAM?") JUndefined JUndefined =
      chat_request (JStr query) JUndefined JUndefined /\
    url (chat_request (JStr "What is SLAM?") JUndefined JUndefined) =
      API_BASE_URL +:+ "/chat" /\
    body (chat_request (JStr "What is SLAM?") JUndefined JUndefined) =
      unscoped_body query.
Proof.
  apply (widget_chat_requests_unscoped
           [(SubmitForm 1%float 2%float, reply 200 answered)] asking).
  - vm_compute. apply list_elem_of_here.
  - reflexivity.
Defined.

Lemma handleFeedback_updates_only_target_witness :
  exists st',
    outcome (handleFeedback (JStr "m1") (JStr "helpful") two_answers)
            (reply 200 (JObj [("id", JStr "m1"); ("feedback", JStr "helpful")])) =
      Normal st' /\
    isOpen st' = isOpen two_answers /\ inputValue st' = inputValue two_answers /\
    isLoading st' = isLoading two_answers /\ error st' = error two_answers /\
    length (messages st') = length (messages two_answers) /\
    forall i msg, messages two_answers !! i = Some msg ->
      exists msg', messages st' !! i = Some msg' /\
        (same_primitive (messageId msg) (JStr "m1") ->
         feedback msg' = JStr "helpful" /\ same_but_feedback msg msg') /\
        (~ same_primitive (messageId msg) (JStr "m1") -> msg' = msg).
Proof.
  apply (handleFeedback_updates_only_target (JStr "m1") (JStr "helpful") two_answers
           (reply 200 (JObj [("id", JStr "m1"); ("feedback", JStr "helpful")]))
           (JObj [("id", JStr "m1"); ("feedback", JStr "helpful")])).
  - reflexivity.
  - vm_compute. reflexivity.
Defined.

(** The same call, run: of the two answers the one with id [m1] is marked
    and the one with id [m2] is not. *)
Example handleFeedback_marks_m1 :
  outcome (handleFeedback (JStr "m1") (JStr "helpful") two_answers)
          (reply 200 (JObj [("id", JStr "m1"); ("feedback", JStr "helpful")])) =
  Normal (MkState true
            [with_feedback (JStr "helpful") (bot_message "m1"); bot_message "m2"]
            "" false None).
Proof. vm_compute. reflexivity. Qed.

End Demonstrations.

(* ===================================================================== *)
(** * The Content Chunker *)
(* ===================================================================== *)

Section ChunkerFacts.
Import Backend Backend.Chunker Coverage.

Variable cfg : config.
Variable src : string.
Variable doc : text.

Hypothesis valid : validate cfg = inr cfg.

Lemma overlap_below_max : overlap_size cfg < max_chunk_size cfg.
Proof.
  unfold validate in valid.
  destruct (Nat.ltb_spec (overlap_size cfg) (max_chunk_size cfg)); [assumption | discriminate].
Qed.

Lemma last_boundary_range lo n pos :
  last_boundary doc lo n = Some pos -> lo < pos <= lo + n.
Proof.
  induction n as [| n IH]; cbn; [discriminate |].
  destruct (is_boundary doc (lo + S n)).
  - intros [= <-]. lia.
  - intros Hpos. specialize (IH Hpos). lia.
Qed.

(** A cut leaves a chunk longer than the overlap and within the budget. *)
Lemma choose_cut_range start :
  start + overlap_size cfg < choose_cut cfg doc start <= start + max_chunk_size cfg.
Proof.
  pose proof overlap_below_max as Hlt. unfold choose_cut.
  destruct (last_boundary doc _ _) as [pos |] eqn:Hpos; cbn.
  - apply last_boundary_range in Hpos. lia.
  - lia.
Qed.

(** Every chunk is a slice of the document starting where it was asked to,
    at least as long as the overlap when there is that much text left. *)
Lemma chunk_from_head fuel start seq c rest :
  chunk_from cfg src doc fuel start seq = c :: rest ->
  overlap_size cfg <= length doc - start ->
  overlap_size cfg <= length (chunk_text c) /\
  take (overlap_size cfg) (chunk_text c) = take (overlap_size cfg) (drop start doc).
Proof.
  pose proof (choose_cut_range start) as Hcut.
  destruct fuel as [| fuel]; cbn; [discriminate |].
  destruct (Nat.leb_spec (length doc) start) as [Hdone | Hleft']; [discriminate |].
  destruct (Nat.leb_spec (length doc - start) (max_chunk_size cfg)) as [Hfits | Hmore].
  - intros [= <- _] Hleft. cbn. rewrite length_drop. auto.
  - intros [= <- _] Hleft. cbn. rewrite length_take, length_drop, take_take.
    split; [lia |]. f_equal. lia.
Qed.

(** The rounds allowed are enough: once [fuel] covers the text that is
    left, more of it changes nothing. *)
Lemma chunk_from_enough fuel : forall fuel' start seq,
  length doc - start <= fuel -> fuel <= fuel' ->
  chunk_from cfg src doc fuel' start seq = chunk_from cfg src doc fuel start seq.
Proof.
  induction fuel as [| fuel IH]; intros fuel' start seq Hleft Hmore.
  - destruct fuel' as [| fuel']; [reflexivity |]. cbn.
    destruct (Nat.leb_spec (length doc) start); [reflexivity | lia].
  - destruct fuel' as [| fuel']; [lia |]. cbn.
    pose proof (choose_cut_range start) as Hcut.
    destruct (Nat.leb_spec (length doc) start); [reflexivity |].
    destruct (Nat.leb_spec (length doc - start) (max_chunk_size cfg)); [reflexivity |].
    f_equal. apply IH; lia.
Qed.

(** The chunker gets to the end of the document: the last chunk is the
    rest of the text from where it starts. *)
Lemma chunk_from_reaches_end fuel : forall start seq,
  start < length doc -> length doc - start <= fuel ->
  exists c, last (chunk_from cfg src doc fuel start seq) = Some c /\
            exists from, from < length doc /\ chunk_text c = drop from doc.
Proof.
  induction fuel as [| fuel IH]; intros start seq Hstart Hfuel; [lia |]. cbn.
  pose proof (choose_cut_range start) as Hcut.
  destruct (Nat.leb_spec (length doc) start) as [Hdone | Hleft]; [lia |].
  destruct (Nat.leb_spec (length doc - start) (max_chunk_size cfg)) as [Hfits | Hmore].
  - eexists. split; [reflexivity |]. eauto.
  - destruct (IH (choose_cut cfg doc start - overlap_size cfg) (S seq))
      as [c [Hlast Hc]]; [lia | lia |].
    exists c. split; [| exact Hc].
    destruct (chunk_from cfg src doc fuel _ _); [discriminate | exact Hlast].
Qed.

(** Every chunk carries the source, its place in the sequence and the
    configured overlap. *)
Lemma chunk_from_labels fuel : forall start seq i c,
  chunk_from cfg src doc fuel start seq !! i = Some c ->
  source c = src /\ sequence c = seq + i /\ overlap c = overlap_size cfg.
Proof.
  induction fuel as [| fuel IH]; intros start seq i c; cbn; [discriminate |].
  destruct (Nat.leb_spec (length doc) start) as [Hdone | Hleft]; [discriminate |].
  destruct (Nat.leb_spec (length doc - start) (max_chunk_size cfg)) as [Hfits | Hmore].
  - destruct i; [| discriminate]. intros [= <-]. cbn. repeat split. lia.
  - destruct i as [| i]; cbn.
    + intros [= <-]. cbn. repeat split. lia.
    + intros Hc. apply IH in Hc as (-> & -> & ->). repeat split. lia.
Qed.

(** Put back together, the chunks from [start] on are the text from
    [start] on: nothing is lost and nothing is doubled. *)
Lemma chunk_from_covers fuel : forall start seq,
  length doc - start <= fuel ->
  stitch (chunk_from cfg src doc fuel start seq) = drop start doc.
Proof.
  induction fuel as [| fuel IH]; intros start seq Hfuel; cbn.
  - symmetry. apply drop_ge. lia.
  - pose proof (choose_cut_range start) as Hcut.
    destruct (Nat.leb_spec (length doc) start) as [Hdone | Hleft];
      [symmetry; apply drop_ge; assumption |].
    destruct (Nat.leb_spec (length doc - start) (max_chunk_size cfg)) as [Hfits | Hmore].
    + cbn. apply app_nil_r.
    + cbn [stitch chunk_text].
      specialize (IH (choose_cut cfg doc start - overlap_size cfg) (S seq)).
      destruct (chunk_from cfg src doc fuel _ _) as [| c rest] eqn:Hrest.
      * cbn in IH. symmetry in IH. apply (f_equal length) in IH; [| lia].
        rewrite length_drop in IH. cbn in IH. lia.
      * pose proof (chunk_from_labels fuel _ _ 0 c
                      ltac:(rewrite Hrest; reflexivity)) as (_ & _ & Hoverlap).
        pose proof Hrest as Hhead.
        apply chunk_from_head in Hhead as [Hlen _]; [| lia].
        cbn [map concat]. rewrite Hoverlap.
        rewrite <- (drop_app_le (chunk_text c)) by exact Hlen.
        change (chunk_text c ++ concat (map (fun c' => drop (overlap c') (chunk_text c')) rest))
          with (stitch (c :: rest)).
        rewrite IH by lia. rewrite drop_drop.
        replace (choose_cut cfg doc start - overlap_size cfg + overlap_size cfg)
          with (start + (choose_cut cfg doc start - start)) by lia.
        rewrite <- drop_drop. apply take_drop.
Qed.

(** No chunk is longer than the configured maximum. *)
Lemma chunk_from_bounded fuel : forall start seq c,
  c ∈ chunk_from cfg src doc fuel start seq ->
  length (chunk_text c) <= max_chunk_size cfg.
Proof.
  induction fuel as [| fuel IH]; intros start seq c; cbn; [inversion 1 |].
  pose proof (choose_cut_range start) as Hcut.
  destruct (Nat.leb_spec (length doc) start) as [Hdone | Hleft]; [inversion 1 |].
  destruct (Nat.leb_spec (length doc - start) (max_chunk_size cfg)) as [Hfits | Hmore].
  - intros ->%list_elem_of_singleton. cbn. rewrite length_drop. lia.
  - intros [-> | Hin]%elem_of_cons.
    + cbn. rewrite length_take. lia.
    + eapply IH, Hin.
Qed.

(** C5. In the chunks of a document, any chunk and the one after it overlap
    by [overlap_size] characters: both have at least that many, and the last
    [overlap_size] characters of the first are the first [overlap_size]
    characters of the second. *)
Theorem adjacent_chunks_overlap (i : nat) (c1 c2 : Chunk) :
  chunk cfg src doc !! i = Some c1 ->
  chunk cfg src doc !! S i = Some c2 ->
  overlap_size cfg <= length (chunk_text c1) /\
  overlap_size cfg <= length (chunk_text c2) /\
  drop (length (chunk_text c1) - overlap_size cfg) (chunk_text c1) =
  take (overlap_size cfg) (chunk_text c2).
Proof.
  unfold chunk. generalize (length doc) at 1 2 as fuel. generalize 0 at 1 3 as start.
  generalize 0 as seq. intros seq start fuel. revert start seq i.
  induction fuel as [| fuel IH]; intros start seq i; cbn; [discriminate |].
  pose proof (choose_cut_range start) as Hcut.
  destruct (Nat.leb_spec (length doc) start) as [Hdone | Hleft]; [discriminate |].
  destruct (Nat.leb_spec (length doc - start) (max_chunk_size cfg)) as [Hfits | Hmore].
  - (* the rest fitted in one chunk: it has no successor *)
    destruct i; discriminate.
  - destruct i as [| i]; cbn.
    + (* the first chunk of this round and the first of the next *)
      intros [= <-] Hnext. cbn [chunk_text].
      destruct (chunk_from cfg src doc fuel _ _) as [| c rest] eqn:Hrest;
        [discriminate |].
      cbn in Hnext. injection Hnext as ->.
      apply chunk_from_head in Hrest as [Hlen Hprefix]; [| lia].
      rewrite length_take, length_drop, Hprefix.
      split; [lia |]. split; [exact Hlen |].
      replace (min (choose_cut cfg doc start - start) (length doc - start))
        with (choose_cut cfg doc start - start) by lia.
      rewrite (take_drop_commute doc), (take_drop_commute doc), drop_drop.
      f_equal; [lia |]. f_equal. lia.
    + (* both chunks come from later rounds *)
      apply IH.
Qed.

End ChunkerFacts.

(** C7. The empty document has no chunks: the chunker's loop has nothing
    to go through and returns the empty sequence; being a total function it
    has no error to raise. *)
Theorem chunk_empty_document (cfg : Backend.Chunker.config) (src : string) :
  Backend.Chunker.chunk cfg src [] = [].
Proof. reflexivity. Qed.

Section ChunkFacts.
Import Backend Backend.Chunker Coverage PipelineDemo.

(** A document that is not empty is covered to its end. *)
Lemma chunk_reaches_end cfg src (doc : text) :
  validate cfg = inr cfg -> doc <> [] ->
  exists c, last (chunk cfg src doc) = Some c /\
            exists from, from < length doc /\ chunk_text c = drop from doc.
Proof.
  intros Hvalid Hdoc. apply chunk_from_reaches_end; [assumption | | lia].
  destruct doc; [congruence | cbn; lia].
Qed.

(** Chunking coverage: the chunks, less their overlaps, are the document. *)
Lemma chunk_covers cfg src (doc : text) :
  validate cfg = inr cfg -> stitch (chunk cfg src doc) = doc.
Proof. intros Hvalid. apply chunk_from_covers; [assumption | lia]. Qed.

(** A chunk's sequence index is its place among the chunks of its source. *)
Lemma chunk_labels cfg src (doc : text) i c :
  chunk cfg src doc !! i = Some c ->
  source c = src /\ sequence c = i /\ overlap c = overlap_size cfg.
Proof. intros Hc. apply chunk_from_labels in Hc. exact Hc. Qed.

(** Allowing the loop more rounds gives the same chunks. *)
Lemma chunk_fuel_independent cfg src (doc : text) extra :
  validate cfg = inr cfg ->
  chunk_from cfg src doc (length doc + extra) 0 0 = chunk cfg src doc.
Proof. intros Hvalid. apply chunk_from_enough; [assumption | lia | lia]. Qed.

Lemma chunk_bounded cfg src (doc : text) c :
  validate cfg = inr cfg -> c ∈ chunk cfg src doc ->
  length (chunk_text c) <= max_chunk_size cfg.
Proof.
  intros Hvalid. apply chunk_from_bounded. assumption.
Qed.

Example chunk_alphabet :
  map (fun c => (string_of_list_ascii (chunk_text c), sequence c))
      (chunk (MkConfig 10 3) "week-1" alphabet) =
  [("abcdefghij", 0); ("hijklmnopq", 1); ("opqrstuvwx", 2); ("vwxyz", 3)].
Proof. reflexivity. Qed.

Example chunk_on_sentences :
  map (fun c => (string_of_list_ascii (section c), string_of_list_ascii (chunk_text c)))
      (chunk (MkConfig 30 5) "week-1"
         (list_ascii_of_string "# Robots
They move. They sense! Do they think? Some do."%string)) =
  [("Robots", "# Robots
They move. "); ("Robots", "ove. They sense! ");
   ("Robots", "nse! Do they think? Some do.")].
Proof. reflexivity. Qed.

Lemma adjacent_chunks_overlap_witness :
  3 <= 10 /\ 3 <= 10 /\
  drop (10 - 3) (list_ascii_of_string "hijklmnopq") =
  take 3 (list_ascii_of_string "opqrstuvwx").
Proof.
  exact (adjacent_chunks_overlap (MkConfig 10 3) "week-1" alphabet eq_refl 1
           (MkChunk "week-1" [] (list_ascii_of_string "hijklmnopq") 1 3)
           (MkChunk "week-1" [] (list_ascii_of_string "opqrstuvwx") 2 3)
           eq_refl eq_refl).
Defined.

End ChunkFacts.

(* ===================================================================== *)
(** * The Vector Index *)
(* ===================================================================== *)

Section VectorIndexFacts.
Import Backend Backend.VectorIndex.

Lemma insert_desc_Forall (P : payload * Q -> Prop) x l :
  P x -> Forall P l -> Forall P (insert_desc x l).
Proof.
  intros Hx. induction 1 as [| y rest Hy Hrest IH]; cbn.
  - repeat constructor. exact Hx.
  - destruct (Qle_bool (snd y) (snd x)); repeat constructor; assumption.
Qed.

Lemma insert_desc_sorted x l :
  StronglySorted score_desc l -> StronglySorted score_desc (insert_desc x l).
Proof.
  induction 1 as [| y rest Hsorted IH Hy]; cbn.
  - repeat constructor.
  - destruct (Qle_bool (snd y) (snd x)) eqn:Hcmp.
    + apply Qle_bool_iff in Hcmp. constructor; [constructor; assumption |].
      constructor; [exact Hcmp |].
      eapply Forall_impl; [exact Hy |]. intros z Hz. unfold score_desc in *.
      eapply Qle_trans; eassumption.
    + constructor; [exact IH |].
      apply insert_desc_Forall; [| exact Hy].
      unfold score_desc. apply Qlt_le_weak, Qnot_le_lt.
      intros Hle. apply Qle_bool_iff in Hle. congruence.
Qed.

Lemma sort_desc_sorted l : StronglySorted score_desc (sort_desc l).
Proof.
  induction l as [| x l IH]; cbn; [constructor | apply insert_desc_sorted, IH].
Qed.

Lemma sort_desc_Forall (P : payload * Q -> Prop) l :
  Forall P l -> Forall P (sort_desc l).
Proof.
  induction 1; cbn; [constructor | apply insert_desc_Forall; assumption].
Qed.

Lemma length_insert_desc x l : length (insert_desc x l) = S (length l).
Proof.
  induction l as [| y rest IH]; cbn; [reflexivity |].
  destruct (Qle_bool (snd y) (snd x)); cbn; [reflexivity | rewrite IH; reflexivity].
Qed.

(** Sorting loses nothing. *)
Lemma length_sort_desc l : length (sort_desc l) = length l.
Proof.
  induction l as [| x l IH]; [reflexivity |].
  change (sort_desc (x :: l)) with (insert_desc x (sort_desc l)).
  rewrite length_insert_desc, IH. reflexivity.
Qed.

Lemma filter_Forall {A} (f : A -> bool) (l : list A) :
  Forall (fun x => f x = true) (List.filter f l).
Proof.
  induction l as [| x l IH]; cbn; [constructor |].
  destruct (f x) eqn:Hx; [constructor |]; assumption.
Qed.

Lemma filter_none {A} (f : A -> bool) (l : list A) :
  Forall (fun x => f x = false) l -> List.filter f l = [].
Proof.
  induction 1 as [| x l Hx _ IH]; cbn; [reflexivity |]. rewrite Hx. exact IH.
Qed.

Variable similarity : vector -> vector -> Q.

(** What is scored is what is stored. *)
Lemma scored_stored (c : collection) query_vector chapter_filter e :
  e ∈ scored similarity c query_vector chapter_filter ->
  exists id v, c !! id = Some (v, fst e) /\
               in_chapter chapter_filter (fst e) = true /\
               snd e = similarity query_vector v.
Proof.
  unfold scored. intros Hin.
  apply list_elem_of_fmap in Hin as [[v p] [-> Hin]].
  apply list_elem_of_In, filter_In in Hin as [Hin Hchapter].
  apply list_elem_of_In, list_elem_of_fmap in Hin as [[id [v' p']] [Heq Hin]].
  cbn in Heq. injection Heq as <- <-.
  apply elem_of_map_to_list in Hin. cbn in *. eauto.
Qed.

(** C2. A search returns at most [top_k] entries, each with a score of at
    least [min_score], in descending order of score; and when no stored
    record (of the chapter asked for) reaches [min_score], it returns the
    empty sequence. *)
Theorem search_contract (c : collection) (query_vector : vector) (top_k : nat)
    (min_score : Q) (chapter_filter : option string) :
  length (search similarity c query_vector top_k min_score chapter_filter) <= top_k /\
  Forall (fun e => (min_score <= snd e)%Q)
         (search similarity c query_vector top_k min_score chapter_filter) /\
  StronglySorted score_desc
         (search similarity c query_vector top_k min_score chapter_filter) /\
  ((forall id v p, c !! id = Some (v, p) -> in_chapter chapter_filter p = true ->
                   (similarity query_vector v < min_score)%Q) ->
   search similarity c query_vector top_k min_score chapter_filter = []).
Proof.
  unfold search. repeat split.
  - rewrite length_take. lia.
  - apply Forall_take, sort_desc_Forall.
    eapply Forall_impl; [apply filter_Forall |].
    intros e He. apply Qle_bool_iff. exact He.
  - eapply StronglySorted_app_1_l. rewrite take_drop. apply sort_desc_sorted.
  - intros Hbelow. rewrite filter_none; [destruct top_k; reflexivity |].
    apply Forall_forall. intros e He.
    apply scored_stored in He as [id [v [Hstored [Hchapter Hscore]]]].
    specialize (Hbelow id v (fst e) Hstored Hchapter).
    destruct (Qle_bool min_score (snd e)) eqn:Hcmp; [| reflexivity].
    apply Qle_bool_iff in Hcmp. rewrite Hscore in Hcmp.
    exfalso. eapply Qlt_not_le; eassumption.
Qed.

End VectorIndexFacts.

(* ===================================================================== *)
(** * The RAG Orchestrator *)
(* ===================================================================== *)

Section OrchestratorFacts.
Import Backend Backend.VectorIndex Backend.Clients Backend.Orchestrator.

Variable similarity : vector -> vector -> Q.
Variable p : providers.
Variable cfg : settings.

(** The Completion Client is called only with a context that is not empty. *)
Lemma completion_needs_context idx stored info question chapter_filter selected_text :
  existsb calls_completion
    (query similarity p cfg idx stored info question chapter_filter selected_text).1.1 = true ->
  exists v, embed p (search_text question selected_text) = inr v /\
            search similarity idx v (top_k cfg) (min_score cfg) chapter_filter <> [].
Proof.
  unfold query. destruct (embed p _) as [e | v]; cbn; [intros [=] |].
  destruct (search _ _ _ _ _ _) as [| top others] eqn:Hfound; cbn; [intros [=] |].
  intros _. exists v. split; [reflexivity |]. rewrite Hfound. discriminate.
Qed.

(** C1. When retrieval returns an empty context (the question was embedded
    and the search found nothing), [query] makes no call to the Completion
    Client, its calls being the embedding and the search, and returns the
    fixed answer with no source and confidence 0; nothing is persisted. *)
Theorem empty_context_skips_generation (idx : collection) (stored : list ChatMessage)
    (info : request_info) (question : text) (chapter_filter : option string)
    (selected_text : option text) (v : vector) :
  embed p (search_text question selected_text) = inr v ->
  search similarity idx v (top_k cfg) (min_score cfg) chapter_filter = [] ->
  query similarity p cfg idx stored info question chapter_filter selected_text =
    ([CallEmbedding (search_text question selected_text);
      CallSearch v (top_k cfg) (min_score cfg) chapter_filter],
     inr (MkAnswer NO_RELEVANT_CONTENT [] 0 (elapsed_ms info)),
     stored) /\
  existsb calls_completion
    (query similarity p cfg idx stored info question chapter_filter selected_text).1.1 = false.
Proof.
  intros Hembed Hsearch. unfold query. rewrite Hembed, Hsearch. split; reflexivity.
Qed.

End OrchestratorFacts.

(* ===================================================================== *)
(** * The Ingestion Job *)
(* ===================================================================== *)

Section IngestionFacts.
Import Backend Backend.Chunker Backend.VectorIndex Backend.Clients Backend.Ingestion Ids.

Lemma dom_upsert (records : list record) (c : collection) :
  dom (upsert records c) = dom c ∪ record_ids records.
Proof.
  unfold upsert, record_ids. revert c.
  induction records as [| r records IH]; intros c; cbn.
  - set_solver.
  - rewrite IH, dom_insert_L. set_solver.
Qed.

Lemma embed_batch_length p texts vectors :
  embed_batch p texts = inr vectors -> length vectors = length texts.
Proof.
  revert vectors. induction texts as [| t texts IH]; intros vectors; cbn.
  - intros [= <-]. reflexivity.
  - destruct (embed p t); [discriminate |].
    destruct (embed_batch p texts) as [| vs]; [discriminate |].
    intros [= <-]. cbn. f_equal. apply IH. reflexivity.
Qed.

Lemma record_ids_all chunks vectors :
  length vectors = length chunks ->
  record_ids (zip_with to_record chunks vectors) =
  list_to_set (map (fun c => (source c, sequence c)) chunks).
Proof.
  unfold record_ids. revert vectors.
  induction chunks as [| c chunks IH]; intros [| v vectors]; cbn; try discriminate.
  - reflexivity.
  - intros [= Hlen]. f_equal. apply IH, Hlen.
Qed.

Lemma record_ids_some chunks vectors :
  record_ids (zip_with to_record chunks vectors) ⊆
  list_to_set (map (fun c => (source c, sequence c)) chunks).
Proof.
  unfold record_ids. revert vectors.
  induction chunks as [| c chunks IH]; intros [| v vectors]; cbn;
    [set_solver | set_solver | set_solver |].
  specialize (IH vectors). set_solver.
Qed.

Variable cfg : config.

(** A run stores nothing under an id that is not a chunk's. *)
Lemma dom_ingest p docs : forall idx done,
  dom idx ⊆ dom (ingest cfg p docs idx done).2 /\
  dom (ingest cfg p docs idx done).2 ⊆ dom idx ∪ chunk_ids cfg docs.
Proof.
  induction docs as [| [src doc] docs IH]; intros idx done; cbn.
  - set_solver.
  - destruct (embed_batch p _) as [e | vectors]; cbn; [set_solver |].
    destruct (IH (upsert (zip_with to_record (chunk cfg src doc) vectors) idx)
                 (MkReport (S (documents_processed done))
                    (chunks_ingested done + length (chunk cfg src doc))))
      as [Hlow Hhigh].
    rewrite dom_upsert in Hlow, Hhigh.
    pose proof (record_ids_some (chunk cfg src doc) vectors). set_solver.
Qed.

(** A run that succeeds has stored every chunk. *)
Lemma dom_ingest_done p docs : forall idx done report,
  (ingest cfg p docs idx done).1 = inr report ->
  chunk_ids cfg docs ⊆ dom (ingest cfg p docs idx done).2.
Proof.
  induction docs as [| [src doc] docs IH]; intros idx done report; cbn.
  - set_solver.
  - destruct (embed_batch p _) as [e | vectors] eqn:Hbatch; cbn; [discriminate |].
    intros Hdone. specialize (IH _ _ _ Hdone).
    apply embed_batch_length in Hbatch. rewrite length_map in Hbatch.
    pose proof (proj1 (dom_ingest p docs
                  (upsert (zip_with to_record (chunk cfg src doc) vectors) idx)
                  (MkReport (S (documents_processed done))
                     (chunks_ingested done + length (chunk cfg src doc))))) as Hkept.
    rewrite dom_upsert, (record_ids_all _ _ Hbatch) in Hkept. set_solver.
Qed.

Lemma size_upsert (records : list record) : forall c : collection,
  NoDup (map record_id records) ->
  (forall r, r ∈ records -> c !! record_id r = None) ->
  size (upsert records c) = size c + length records.
Proof.
  unfold upsert.
  induction records as [| r records IH]; intros c Hnodup Hfresh; cbn; [lia |].
  apply NoDup_cons in Hnodup as [Hr Hnodup].
  rewrite IH; [| exact Hnodup |].
  - rewrite map_size_insert_None by (apply Hfresh; left). lia.
  - intros r' Hr'. rewrite lookup_insert_ne.
    + apply Hfresh. right. exact Hr'.
    + intros Heq. apply Hr. rewrite Heq. apply list_elem_of_fmap_2. exact Hr'.
Qed.

Lemma chunk_record_ids src doc vectors :
  length vectors = length (chunk cfg src doc) ->
  map record_id (zip_with to_record (chunk cfg src doc) vectors) =
  map (fun i => (src, i)) (seq 0 (length (chunk cfg src doc))).
Proof.
  intros Hlen. apply list_eq. intros i.
  rewrite !list_lookup_fmap, lookup_zip_with.
  destruct (chunk cfg src doc !! i) as [c |] eqn:Hc; cbn.
  - pose proof (lookup_lt_Some _ _ _ Hc) as Hi.
    destruct (lookup_lt_is_Some_2 vectors i ltac:(lia)) as [v ->]. cbn.
    apply chunk_labels in Hc as (-> & -> & _).
    rewrite lookup_seq_lt by exact Hi. reflexivity.
  - apply lookup_ge_None in Hc. rewrite lookup_seq_ge by exact Hc. reflexivity.
Qed.

(** One record per chunk: from a collection that holds nothing of the
    documents' sources, a run over documents of distinct sources that succeeds
    adds as many records as it reports chunks. *)
Lemma ingest_count p docs : forall (idx : collection) done report,
  NoDup (map fst docs) ->
  (forall src n, is_Some (idx !! (src, n)) -> src ∉ map fst docs) ->
  (ingest cfg p docs idx done).1 = inr report ->
  size (ingest cfg p docs idx done).2 + chunks_ingested done =
    size idx + chunks_ingested report /\
  documents_processed report = documents_processed done + length docs.
Proof.
  induction docs as [| [src doc] docs IH]; intros idx done report Hnodup Hfresh; cbn.
  - intros [= <-]. lia.
  - destruct (embed_batch p _) as [e | vectors] eqn:Hbatch; cbn; [discriminate |].
    apply embed_batch_length in Hbatch. rewrite length_map in Hbatch.
    apply NoDup_cons in Hnodup as [Hsrc Hnodup].
    pose proof (chunk_record_ids src doc vectors Hbatch) as Hids.
    intros Hdone. apply IH in Hdone as [Hsize Hdocs]; [| exact Hnodup |].
    + cbn in Hsize, Hdocs. rewrite size_upsert in Hsize.
      * rewrite length_zip_with, Hbatch in Hsize. lia.
      * rewrite Hids. apply NoDup_fmap_2; [| apply NoDup_seq].
        intros i j [= ->]. reflexivity.
      * intros r Hr. destruct (idx !! record_id r) eqn:Hheld; [| reflexivity].
        exfalso.
        assert (record_id r ∈ map record_id
                  (zip_with to_record (chunk cfg src doc) vectors)) as Hr'
          by (apply list_elem_of_fmap_2; exact Hr).
        rewrite Hids in Hr'. apply list_elem_of_fmap in Hr' as [i [Hid _]].
        rewrite Hid in Hheld. eapply Hfresh; [eauto |]. left.
    + intros src' n Hheld Hin.
      destruct (decide (src' = src)) as [-> | Hne]; [contradiction |].
      apply elem_of_dom in Hheld. rewrite dom_upsert in Hheld.
      apply elem_of_union in Hheld as [Hheld | Hheld].
      * apply elem_of_dom in Hheld. eapply Hfresh; [exact Hheld |]. right. exact Hin.
      * unfold record_ids in Hheld. rewrite Hids in Hheld.
        apply elem_of_list_to_set, list_elem_of_fmap in Hheld as [i [[= ? ?] _]].
        contradiction.
Qed.

(** A first run into an empty collection, over documents of distinct
    sources, reports what the collection then holds. *)
Lemma run_count p docs report :
  NoDup (map fst docs) ->
  (run cfg p docs ∅).1 = inr report ->
  size (run cfg p docs ∅).2 = chunks_ingested report /\
  documents_processed report = length docs.
Proof.
  intros Hnodup Hdone. unfold run in *.
  apply ingest_count in Hdone as [Hsize Hdocs]; [| exact Hnodup |].
  - rewrite map_size_empty in Hsize. cbn in Hsize, Hdocs. lia.
  - intros src n [x Hx]. rewrite lookup_empty in Hx. discriminate.
Qed.

(** C6. After a run of the Ingestion Job that succeeded, a second run over
    the same documents leaves the Vector Index with the same number of
    records (and under the same ids): every chunk is upserted under the id
    made of its source and sequence, which the first run already stored.
    This holds whatever vectors the second run is given and whether or not it
    gets through. *)
Theorem reingestion_adds_no_record (p1 p2 : providers) (docs : list (string * text))
    (idx : collection) (first : report) :
  (run cfg p1 docs idx).1 = inr first ->
  size (run cfg p2 docs (run cfg p1 docs idx).2).2 = size (run cfg p1 docs idx).2 /\
  dom (run cfg p2 docs (run cfg p1 docs idx).2).2 = dom (run cfg p1 docs idx).2.
Proof.
  unfold run. intros Hfirst.
  pose proof (dom_ingest_done p1 docs idx (MkReport 0 0) first Hfirst) as Hall.
  destruct (dom_ingest p2 docs (ingest cfg p1 docs idx (MkReport 0 0)).2 (MkReport 0 0))
    as [Hlow Hhigh].
  assert (dom (ingest cfg p2 docs (ingest cfg p1 docs idx (MkReport 0 0)).2
                 (MkReport 0 0)).2
          = dom (ingest cfg p1 docs idx (MkReport 0 0)).2) as Hdom by set_solver.
  split; [| exact Hdom].
  rewrite <- !size_dom, Hdom. reflexivity.
Qed.

End IngestionFacts.

(** ** The pipeline at work *)

Section PipelineDemonstrations.
Import Backend Backend.Chunker Backend.VectorIndex Backend.Clients
       Backend.Orchestrator Backend.Ingestion PipelineDemo.

Lemma empty_context_skips_generation_witness :
  query dot unit_providers default_settings robotics_index [] this_request
        swallow None None =
    ([CallEmbedding swallow; CallSearch [1%Q; 0%Q] 5 (7 # 10) None],
     inr (MkAnswer NO_RELEVANT_CONTENT [] 0 7), []) /\
  existsb calls_completion
    (query dot unit_providers default_settings robotics_index [] this_request
           swallow None None).1.1 = false.
Proof.
  apply (empty_context_skips_generation dot unit_providers default_settings
           robotics_index [] this_request swallow None None [1%Q; 0%Q]).
  - reflexivity.
  - vm_compute. reflexivity.
Defined.

(** A question the corpus covers is answered from it, with the chunk as
    source and its score as confidence, and the exchange is persisted. *)
Example grounded_answer :
  match query dot unit_providers default_settings kinematics_index [] this_request
              (lit "What is forward kinematics?") None None with
  | (calls, inr a, stored) =>
      existsb calls_completion calls = true /\
      answer_text a = lit "An answer." /\
      sources a = [MkCitation "week-7" (lit "Kinematics")
                     (lit "Forward kinematics computes the pose of the end effector.")] /\
      (confidence a == 91 # 100)%Q /\
      map message_id stored = ["m1"]
  | _ => False
  end.
Proof. vm_compute. repeat split; reflexivity. Qed.

(** Three documents of five chunks each make fifteen records, and still
    fifteen after a second run. *)
Example fifteen_records :
  size (run (MkConfig 10 3) unit_providers three_documents ∅).2 = 15 /\
  size (run (MkConfig 10 3) unit_providers three_documents
            (run (MkConfig 10 3) unit_providers three_documents ∅).2).2 = 15.
Proof. vm_compute. split; reflexivity. Qed.

Lemma reingestion_adds_no_record_witness :
  size (run (MkConfig 10 3) failing_providers three_documents
            (run (MkConfig 10 3) unit_providers three_documents ∅).2).2 =
  size (run (MkConfig 10 3) unit_providers three_documents ∅).2 /\
  dom (run (MkConfig 10 3) failing_providers three_documents
           (run (MkConfig 10 3) unit_providers three_documents ∅).2).2 =
  dom (run (MkConfig 10 3) unit_providers three_documents ∅).2.
Proof.
  apply (reingestion_adds_no_record (MkConfig 10 3) unit_providers failing_providers
           three_documents ∅ (MkReport 3 15)).
  vm_compute. reflexivity.
Defined.

End PipelineDemonstrations.

(* ===================================================================== *)
(** * More on the API client *)
(* ===================================================================== *)

Section MoreApiFacts.
Import Js Api Expected Submission.
Context `{Host}.

(** X1. [submitFeedback] sends one request whatever it is called with and
    whatever the network does: a PUT to [API_BASE_URL/chat/<id>/feedback], the
    id written as a template literal writes it, with the JSON content type
    and a body of the one field [feedback]; called without a feedback, the
    body is the empty object. *)
Theorem submitFeedback_request (messageId feedback : jsval) (net : network) :
  requests (trace (submitFeedback messageId feedback) net) =
    [MkRequest (API_BASE_URL +:+ "/chat/" +:+ ToString messageId +:+ "/feedback") "PUT"
       [("Content-Type", "application/json")]
       (Some (JObj match feedback with
                   | JUndefined => []
                   | _ => [("feedback", stringify_value feedback)]
                   end))].
Proof.
  destruct (submitFeedback_run messageId feedback net) as [-> _].
  unfold feedback_request, JSON_stringify, json_headers.
  destruct feedback; reflexivity.
Qed.

(** X2. [checkHealth] sends one request whatever the network does: a GET
    to [API_BASE_URL/health] with no header and no body. *)
Theorem checkHealth_request (net : network) :
  requests (trace checkHealth net) =
    [MkRequest (API_BASE_URL +:+ "/health") "GET" [] None].
Proof. destruct (checkHealth_run net) as [-> _]. reflexivity. Qed.

(** X3. The base URL is never empty: it is [REACT_APP_API_URL] when there
    is a [process] with an [env] that has it and it is not empty, and the
    deployed backend's address in every other case. *)
Theorem API_BASE_URL_resolution :
  API_BASE_URL <> "" /\
  (forall env u, process = Some (Some env) -> env !! "REACT_APP_API_URL" = Some u ->
                 u <> "" -> API_BASE_URL = u) /\
  (API_BASE_URL <> DEFAULT_API_URL ->
   exists env, process = Some (Some env) /\
               env !! "REACT_APP_API_URL" = Some API_BASE_URL).
Proof.
  unfold API_BASE_URL. split; [| split].
  - destruct process as [[env |] |]; try discriminate.
    destruct (env !! "REACT_APP_API_URL") as [u |]; [| discriminate].
    destruct (String.eqb_spec u ""); [discriminate | assumption].
  - intros env u -> -> Hu. destruct (String.eqb_spec u ""); [contradiction | reflexivity].
  - destruct process as [[env |] |]; try congruence.
    destruct (env !! "REACT_APP_API_URL") as [u |] eqn:Hu; [| congruence].
    destruct (String.eqb_spec u ""); [congruence |]. eauto.
Qed.

Lemma guarded_trace (label fallback : string) (req : request) net :
  let call :=
    try_catch
      (let* response := fetch req in
       if negb (ok response) then
         let* errorData := await (json_body response) in
         let* message := await (get_prop errorData "message") in
         throw (new_Error (or_else message (JStr fallback)))
       else await (json_body response))
      (fun error => let* _ := console_error label error in throw error) in
  trace call net = logged label req (outcome call net).
Proof.
  unfold trace, outcome, try_catch, bind, fetch, logged. cbn.
  destruct (net req) as [e | resp]; cbn; [reflexivity |].
  destruct (json_body resp) as [e | parsed], (ok resp); cbn; try reflexivity.
  destruct (get_prop parsed "message"); reflexivity.
Qed.

(** X4. Each function of the client logs what it throws, once: its events
    are the request and, when the call throws, one [console.error] with the
    function's label and the very error thrown; a call that returns logs
    nothing. *)
Theorem client_logs_what_it_throws (net : network) :
  (forall query chapter selectedText,
      trace (queryChatbot query chapter selectedText) net =
      logged "Chatbot query error:" (chat_request query chapter selectedText)
             (outcome (queryChatbot query chapter selectedText) net)) /\
  (forall messageId feedback,
      trace (submitFeedback messageId feedback) net =
      logged "Feedback submission error:" (feedback_request messageId feedback)
             (outcome (submitFeedback messageId feedback) net)) /\
  trace checkHealth net =
    logged "Health check error:" health_request (outcome checkHealth net).
Proof.
  split; [| split].
  - intros. apply guarded_trace.
  - intros. apply guarded_trace.
  - unfold trace, outcome, checkHealth, try_catch, bind, fetch, logged. cbn.
    destruct (net health_request) as [e | resp]; cbn; [reflexivity |].
    destruct (json_body resp); reflexivity.
Qed.

(** X5. A request that fails on the network surfaces as it is: each
    function of the client throws the very value [fetch] rejected with,
    neither wrapped nor replaced by its own message. *)
Theorem network_failure_is_rethrown (net : network) (e : exn) :
  (forall query chapter selectedText,
      net (chat_request query chapter selectedText) = inl e ->
      outcome (queryChatbot query chapter selectedText) net = Throw e) /\
  (forall messageId feedback,
      net (feedback_request messageId feedback) = inl e ->
      outcome (submitFeedback messageId feedback) net = Throw e) /\
  (net health_request = inl e -> outcome checkHealth net = Throw e).
Proof.
  split; [| split].
  - intros query chapter selectedText Hnet.
    destruct (queryChatbot_run query chapter selectedText net) as [_ ->].
    rewrite Hnet. reflexivity.
  - intros messageId feedback Hnet.
    destruct (submitFeedback_run messageId feedback net) as [_ ->].
    rewrite Hnet. reflexivity.
  - intros Hnet. destruct (checkHealth_run net) as [_ ->]. rewrite Hnet. reflexivity.
Qed.

(** X18. An error reply whose body is not JSON makes [queryChatbot] and
    [submitFeedback] throw the parse error of [response.json()]: the error
    message of the function itself is not what the caller gets. *)
Theorem error_body_not_json (net : network) (resp : response) (e : exn) :
  ok resp = false ->
  json_body resp = inl e ->
  (forall query chapter selectedText,
      net (chat_request query chapter selectedText) = inr resp ->
      outcome (queryChatbot query chapter selectedText) net = Throw e) /\
  (forall messageId feedback,
      net (feedback_request messageId feedback) = inr resp ->
      outcome (submitFeedback messageId feedback) net = Throw e).
Proof.
  intros Hnot_ok Hbody. split.
  - intros query chapter selectedText Hnet.
    destruct (queryChatbot_run query chapter selectedText net) as [_ ->].
    rewrite Hnet. unfold settle. rewrite Hbody. reflexivity.
  - intros messageId feedback Hnet.
    destruct (submitFeedback_run messageId feedback net) as [_ ->].
    rewrite Hnet. unfold settle. rewrite Hbody. reflexivity.
Qed.

End MoreApiFacts.

(* ===================================================================== *)
(** * More on the chat widget *)
(* ===================================================================== *)

Section MoreChatbotFacts.
Import Js Api Chatbot Expected View Submission.
Context `{Host}.

(** What [handleSubmit] settles to, by how the chat call went. *)
Lemma handleSubmit_outcome sent_at failed_at st net :
  outcome (handleSubmit sent_at failed_at st) net =
    Normal
      (if String.eqb (trim (inputValue st)) "" || isLoading st then st
       else
         match chat_failure
                 (outcome (queryChatbot (JStr (trim (inputValue st))) JUndefined JUndefined)
                          net),
               outcome (queryChatbot (JStr (trim (inputValue st))) JUndefined JUndefined)
                       net with
         | None, Normal response =>
             MkState (isOpen st)
               (messages st ++ [userMessage (trim (inputValue st)) sent_at;
                                botMessage response])
               "" false None
         | Some e, _ | None, Throw e =>
             MkState (isOpen st)
               (messages st ++ [userMessage (trim (inputValue st)) sent_at;
                                errorMessage failed_at])
               "" false (Some (error_text e))
         end).
Proof.
  unfold handleSubmit. rewrite outcome_bind. cbn [emit outcome snd].
  destruct (String.eqb (trim (inputValue st)) "" || isLoading st); [reflexivity |].
  rewrite outcome_bind, outcome_try_catch, outcome_bind.
  assert (forall (l : list message) a b, (l ++ [a]) ++ [b] = l ++ [a; b]) as Hsnoc
    by (intros; rewrite <- app_assoc; reflexivity).
  destruct (outcome (queryChatbot _ _ _) net) as [response | e].
  - destruct response; cbn; unfold setMessages, setError, setIsLoading, setInputValue;
      cbn; rewrite Hsnoc; reflexivity.
  - cbn. unfold setMessages, setError, setIsLoading, setInputValue. cbn.
    rewrite Hsnoc. reflexivity.
Qed.

(** X6. A submission with nothing to ask (the input is blank once trimmed)
    or made while a reply is awaited is dropped: the default action of the
    event is prevented and that is all, no request is sent and the state is
    what it was. *)
Theorem handleSubmit_drops_blank (sent_at failed_at : float) (st : state) (net : network) :
  String.eqb (trim (inputValue st)) "" || isLoading st = true ->
  trace (handleSubmit sent_at failed_at st) net = [PreventDefault] /\
  outcome (handleSubmit sent_at failed_at st) net = Normal st.
Proof.
  intros Hguard. split.
  - unfold handleSubmit. rewrite trace_bind. cbn [emit trace outcome fst snd].
    rewrite Hguard. reflexivity.
  - rewrite handleSubmit_outcome, Hguard. reflexivity.
Qed.

(** X7. A question that is answered (the chat call returns a reply whose
    properties can be read) adds two messages after those there were: the
    trimmed question as the user's, and the bot's made of the reply's
    [response], [sources], [confidence], [id] and [created_at]; the input is
    emptied, no error is shown and the widget is no longer loading. *)
Theorem handleSubmit_answered (sent_at failed_at : float) (st : state) (net : network)
    (response : jsval) :
  String.eqb (trim (inputValue st)) "" || isLoading st = false ->
  outcome (queryChatbot (JStr (trim (inputValue st))) JUndefined JUndefined) net =
    Normal response ->
  response <> JNull -> response <> JUndefined ->
  outcome (handleSubmit sent_at failed_at st) net =
    Normal (MkState (isOpen st)
              (messages st ++ [userMessage (trim (inputValue st)) sent_at;
                               botMessage response])
              "" false None).
Proof.
  intros Hguard Hcall Hnull Hundef.
  rewrite handleSubmit_outcome, Hguard, Hcall.
  destruct response; try reflexivity; exfalso; auto.
Qed.

(** X8. A question that is not answered (the chat call throws, or returns
    [null]) adds two messages after those there were, the trimmed question
    and the fixed apology, and shows as error the message of what was thrown,
    or the fixed text when that message is empty; the input is emptied and the
    widget is no longer loading.  The handler itself does not throw. *)
Theorem handleSubmit_failed (sent_at failed_at : float) (st : state) (net : network)
    (e : exn) :
  String.eqb (trim (inputValue st)) "" || isLoading st = false ->
  chat_failure
    (outcome (queryChatbot (JStr (trim (inputValue st))) JUndefined JUndefined) net) =
    Some e ->
  outcome (handleSubmit sent_at failed_at st) net =
    Normal (MkState (isOpen st)
              (messages st ++ [userMessage (trim (inputValue st)) sent_at;
                               errorMessage failed_at])
              "" false (Some (error_text e))).
Proof.
  intros Hguard Hfail. rewrite handleSubmit_outcome, Hguard, Hfail.
  destruct (outcome (queryChatbot _ _ _) net); reflexivity.
Qed.

(** X9. Every submission that is not dropped gets exactly one reply in the
    list: the messages there were are followed by the user's question and then
    by one message, the bot's or the apology; the error is shown with the
    apology and only with it; the input is empty and the widget is not
    loading, however the call went. *)
Theorem handleSubmit_one_reply (sent_at failed_at : float) (st : state) (net : network) :
  String.eqb (trim (inputValue st)) "" || isLoading st = false ->
  exists st' reply,
    outcome (handleSubmit sent_at failed_at st) net = Normal st' /\
    messages st' =
      messages st ++ [userMessage (trim (inputValue st)) sent_at; reply] /\
    (type reply = "bot" /\ error st' = None \/
     reply = errorMessage failed_at /\ exists text, error st' = Some text /\ text <> "") /\
    inputValue st' = "" /\ isLoading st' = false /\ isOpen st' = isOpen st.
Proof.
  intros Hguard. rewrite handleSubmit_outcome, Hguard.
  assert (forall e, error_text e <> "") as Htext.
  { intros e. unfold error_text.
    destruct (String.eqb_spec (exn_message e) ""); [discriminate | assumption]. }
  destruct (chat_failure _) as [e |] eqn:Hfail.
  - eexists _, _. split; [reflexivity |]. cbn.
    split; [reflexivity |]. split; [right; eauto | auto].
  - destruct (outcome (queryChatbot _ _ _) net) as [response | e]; [| discriminate].
    eexists _, _. split; [reflexivity |]. cbn.
    split; [reflexivity |]. split; [left; auto | auto].
Qed.

(** X14. The send button is disabled exactly when a submission would be
    dropped: with the button disabled [handleSubmit] sends nothing and
    changes nothing, and with it enabled it sends the one chat request. *)
Theorem send_button_agrees_with_handleSubmit (sent_at failed_at : float) (st : state)
    (net : network) :
  requests (trace (handleSubmit sent_at failed_at st) net) =
    (if send_disabled st then []
     else [chat_request (JStr (trim (inputValue st))) JUndefined JUndefined]) /\
  (send_disabled st = true ->
   outcome (handleSubmit sent_at failed_at st) net = Normal st).
Proof.
  unfold send_disabled. rewrite handleSubmit_requests, handleSubmit_outcome.
  rewrite (orb_comm (isLoading st)). split; [reflexivity |].
  intros ->. reflexivity.
Qed.

(** X15. Only Enter without Shift submits: any other key, and Enter with
    Shift, is left alone (nothing is prevented, nothing sent, nothing
    changed), and Enter alone does what a submission does. *)
Theorem handleKeyDown_submits_on_enter (key : string) (shiftKey : bool)
    (sent_at failed_at : float) (st : state) (net : network) :
  (key <> "Enter" \/ shiftKey = true ->
   trace (handleKeyDown key shiftKey sent_at failed_at st) net = [] /\
   outcome (handleKeyDown key shiftKey sent_at failed_at st) net = Normal st) /\
  (key = "Enter" -> shiftKey = false ->
   outcome (handleKeyDown key shiftKey sent_at failed_at st) net =
     outcome (handleSubmit sent_at failed_at st) net /\
   requests (trace (handleKeyDown key shiftKey sent_at failed_at st) net) =
     requests (trace (handleSubmit sent_at failed_at st) net)).
Proof.
  unfold handleKeyDown. split.
  - intros Hother.
    assert (String.eqb key "Enter" && negb shiftKey = false) as ->.
    { destruct Hother as [Hkey | ->]; [| apply andb_false_r].
      destruct (String.eqb_spec key "Enter"); [contradiction | reflexivity]. }
    split; reflexivity.
  - intros -> ->. cbn [String.eqb Ascii.eqb Bool.eqb negb andb].
    rewrite outcome_bind, trace_bind. cbn [emit trace outcome fst snd app].
    split; [reflexivity | apply requests_prevent].
Qed.

End MoreChatbotFacts.

Section SessionFacts.
Import Js Api Chatbot Expected View Submission.
Context `{Host}.

(** X12. A feedback call that fails changes nothing in the widget: no
    message is marked, none is added and no error is shown; the handler does
    not throw, and the error is logged twice, by [submitFeedback] and then by
    [handleFeedback]. *)
Theorem handleFeedback_failure_is_silent (id feedbackType : jsval) (st : state)
    (net : network) (e : exn) :
  outcome (submitFeedback id feedbackType) net = Throw e ->
  outcome (handleFeedback id feedbackType st) net = Normal st /\
  trace (handleFeedback id feedbackType st) net =
    [Fetch (feedback_request id feedbackType);
     ConsoleError "Feedback submission error:" e;
     ConsoleError "Failed to submit feedback:" e].
Proof.
  intros Hfail. split.
  - rewrite handleFeedback_outcome, Hfail. reflexivity.
  - unfold handleFeedback.
    rewrite trace_try_catch, trace_bind, outcome_bind, Hfail.
    unfold submitFeedback in *. rewrite guarded_trace, Hfail. reflexivity.
Qed.

(** X11. Feedback is given once: after a click on a feedback button that
    gets through, the message shows the thanks in place of the buttons, and a
    further click on it, on either button and whatever the network, sends
    nothing and changes nothing. *)
Theorem feedback_is_given_once (index : nat) (helpful : bool) (st : state)
    (net : network) (msg : message) (id : string) (v : jsval) :
  isOpen st = true ->
  messages st !! index = Some msg ->
  shows_feedback_buttons msg = true ->
  messageId msg = JStr id ->
  outcome (submitFeedback (JStr id) (button_feedback helpful)) net = Normal v ->
  exists st' msg',
    outcome (step (ClickFeedback index helpful) st) net = Normal st' /\
    messages st' !! index = Some msg' /\
    shows_confirmation msg' = true /\
    shows_feedback_buttons msg' = false /\
    forall again net',
      trace (step (ClickFeedback index again) st') net' = [] /\
      outcome (step (ClickFeedback index again) st') net' = Normal st'.
Proof.
  intros Hopen Hmsg Hshown Hid Hok.
  destruct (click_feedback_marks_message index helpful st net msg id v
              Hopen Hmsg Hshown Hid Hok) as (st' & msg' & Hstep & Hmsg' & Hfeedback & Hgone).
  exists st', msg'. repeat split; try assumption.
  - unfold shows_confirmation. rewrite Hfeedback. destruct helpful; reflexivity.
  - cbn [step]. rewrite Hmsg', Hgone, andb_false_r. reflexivity.
  - cbn [step]. rewrite Hmsg', Hgone, andb_false_r. reflexivity.
Qed.

(** X16. No user action makes the widget throw: whatever the action, the
    state and the network, the handler settles normally; the errors of the
    client are caught and turned into state or logged. *)
Theorem step_never_throws (a : action) (st : state) (net : network) :
  exists st', outcome (step a st) net = Normal st'.
Proof.
  destruct a as [| value | sent_at failed_at | key shiftKey sent_at failed_at
                 | index helpful]; cbn [step].
  - eauto.
  - destruct (isOpen st); eauto.
  - destruct (isOpen st); [| eauto]. rewrite handleSubmit_outcome. eauto.
  - destruct (isOpen st); [| eauto]. unfold handleKeyDown.
    destruct (_ && _); [| eauto].
    rewrite outcome_bind. cbn [emit outcome snd]. rewrite handleSubmit_outcome. eauto.
  - destruct (messages st !! index) as [clicked |]; [| eauto].
    destruct (_ && _); [| eauto].
    rewrite handleFeedback_outcome. destruct (outcome (submitFeedback _ _) net); eauto.
Qed.

(** X10. No handler call loses, reorders or rewrites a message: when a
    user action has been handled, every message that was in the list is still
    at its index, the same but for its feedback, and the list is no shorter.
    This is said of the state the handlers set, one call at a time, not of
    what the widget then draws. *)
Theorem handler_keeps_history (a : action) (st st' : state) (net : network) :
  outcome (step a st) net = Normal st' ->
  length (messages st) <= length (messages st') /\
  forall i msg, messages st !! i = Some msg ->
    exists msg', messages st' !! i = Some msg' /\ same_but_feedback msg msg'.
Proof.
  assert (forall s s' : state,
             messages s' = messages s ->
             length (messages s) <= length (messages s') /\
             forall i msg, messages s !! i = Some msg ->
               exists msg', messages s' !! i = Some msg' /\ same_but_feedback msg msg')
    as Hsame'
    by (intros s s' ->; split; [lia |]; intros i msg Hmsg; exists msg;
        split; [exact Hmsg | repeat split]).
  pose proof (fun s => Hsame' s s eq_refl) as Hsame.
  assert (forall sent_at failed_at s s',
             outcome (handleSubmit sent_at failed_at s) net = Normal s' ->
             length (messages s) <= length (messages s') /\
             forall i msg, messages s !! i = Some msg ->
               exists msg', messages s' !! i = Some msg' /\ same_but_feedback msg msg')
    as Hsubmit.
  { intros sent_at failed_at s s'. rewrite handleSubmit_outcome.
    destruct (_ || _); [intros [= <-]; apply Hsame |].
    intros [= <-].
    destruct (outcome (queryChatbot _ _ _) net) as [response | e]; cbn [chat_failure];
      [destruct (get_prop response "response") |]; cbn;
      (split; [rewrite length_app; lia |]);
      intros i msg Hmsg; exists msg;
      (split; [apply lookup_app_l_Some; exact Hmsg | repeat split]). }
  destruct a as [| value | sent_at failed_at | key shiftKey sent_at failed_at
                 | index helpful]; cbn [step].
  - intros [= <-]. apply Hsame'. reflexivity.
  - destruct (isOpen st); intros [= <-]; apply Hsame'; reflexivity.
  - destruct (isOpen st); [apply Hsubmit | intros [= <-]; apply Hsame].
  - destruct (isOpen st); [| intros [= <-]; apply Hsame]. unfold handleKeyDown.
    destruct (_ && _); [| intros [= <-]; apply Hsame].
    rewrite outcome_bind. cbn [emit outcome snd]. apply Hsubmit.
  - destruct (messages st !! index) as [clicked |]; [| intros [= <-]; apply Hsame].
    destruct (_ && _); [| intros [= <-]; apply Hsame].
    rewrite handleFeedback_outcome.
    destruct (outcome (submitFeedback _ _) net); intros [= <-]; [| apply Hsame].
    cbn. split; [rewrite length_map; lia |].
    intros i msg Hmsg. rewrite list_lookup_fmap, Hmsg. cbn.
    eexists. split; [reflexivity |].
    destruct (strict_eq _ _); repeat split.
Qed.

(** The requests of one user action: none, the chat request of the trimmed
    input, or the PUT of the feedback of a button that is drawn. *)
Lemma step_sends a st net :
  requests (trace (step a st) net) = [] \/
  (exists query, requests (trace (step a st) net) =
                   [chat_request (JStr query) JUndefined JUndefined]) \/
  (exists msg helpful,
      msg ∈ messages st /\ shows_feedback_buttons msg = true /\
      requests (trace (step a st) net) =
        [feedback_request (messageId msg) (button_feedback helpful)]).
Proof.
  destruct a as [| value | sent_at failed_at | key shiftKey sent_at failed_at
                 | index helpful]; cbn [step].
  - left. reflexivity.
  - left. destruct (isOpen st); reflexivity.
  - destruct (isOpen st); [| left; reflexivity].
    rewrite handleSubmit_requests. destruct (_ || _); [left | right; left]; eauto.
  - destruct (isOpen st); [| left; reflexivity]. unfold handleKeyDown.
    destruct (_ && _); [| left; reflexivity].
    rewrite trace_bind. cbn [emit trace outcome fst snd app].
    rewrite requests_prevent, handleSubmit_requests.
    destruct (_ || _); [left | right; left]; eauto.
  - destruct (messages st !! index) as [msg |] eqn:Hmsg; [| left; reflexivity].
    destruct (isOpen st); [| left; reflexivity]. cbn [andb].
    destruct (shows_feedback_buttons msg) eqn:Hshown; [| left; reflexivity].
    right. right. exists msg, helpful.
    split; [eapply list_elem_of_lookup_2; exact Hmsg |]. split; [exact Hshown |].
    apply handleFeedback_requests.
Qed.

(** X17. The widget sends at most one request per user action: it never
    retries and never polls, so a session sends no more requests than it has
    actions. *)
Theorem run_sends_at_most_one_request_per_action (session : list (action * network))
    (st : state) :
  length (requests (run session st).1) <= length session.
Proof.
  revert st. induction session as [| [a net] rest IH]; intros st; cbn [run]; [cbn; lia |].
  assert (length (requests (trace (step a st) net)) <= 1) as Hone.
  { destruct (step_sends a st net) as [-> | [[query ->] | (msg & helpful & _ & _ & ->)]];
      cbn; lia. }
  unfold trace in Hone. destruct (step a st net) as [t [st' | e]]; cbn [fst] in Hone.
  - specialize (IH st'). destruct (run rest st') as [t' final]. cbn [fst length] in *.
    rewrite requests_app, length_app. lia.
  - specialize (IH st). destruct (run rest st) as [t' final]. cbn [fst length] in *.
    rewrite requests_app, length_app. lia.
Qed.

(** X13. The widget rates only what it drew buttons for: over any
    session, every PUT it sends is the feedback request for a message id that
    is truthy (never [undefined]), and its body is [{feedback: "helpful"}] or
    [{feedback: "not_helpful"}]; it has no way to send [incorrect]. *)
Theorem widget_feedback_requests (session : list (action * network)) (st : state)
    (r : request) :
  r ∈ requests (run session st).1 ->
  method r = "PUT" ->
  exists id helpful,
    truthy id = true /\
    r = feedback_request id (button_feedback helpful) /\
    body r = Some (JObj [("feedback", button_feedback helpful)]).
Proof.
  revert st. induction session as [| [a net] rest IH]; intros st; cbn [run].
  - cbn. intros Hin. inversion Hin.
  - pose proof (step_sends a st net) as Hstep. unfold trace in Hstep.
    assert (forall st1, r ∈ requests (step a st net).1 ++ requests (run rest st1).1 ->
                        method r = "PUT" ->
                        exists id helpful,
                          truthy id = true /\
                          r = feedback_request id (button_feedback helpful) /\
                          body r = Some (JObj [("feedback", button_feedback helpful)]))
      as Hsplit.
    { intros st1 [Hin | Hin]%elem_of_app Hput; [| exact (IH st1 Hin Hput)].
      destruct Hstep as [Hnone | [[query Hchat] | (msg & helpful & _ & Hshown & Hput')]].
      - rewrite Hnone in Hin. inversion Hin.
      - rewrite Hchat in Hin. apply list_elem_of_singleton in Hin. subst r. discriminate.
      - rewrite Hput' in Hin. apply list_elem_of_singleton in Hin. subst r.
        exists (messageId msg), helpful. split; [| split].
        + unfold shows_feedback_buttons in Hshown.
          apply andb_prop in Hshown as [Hshown _].
          apply andb_prop in Hshown as [_ Hid]. exact Hid.
        + reflexivity.
        + destruct helpful; reflexivity. }
    destruct (step a st net) as [t [st' | e]]; cbn [fst] in *.
    + specialize (Hsplit st'). destruct (run rest st') as [t' final]. cbn [fst] in *.
      rewrite requests_app. exact Hsplit.
    + specialize (Hsplit st). destruct (run rest st) as [t' final]. cbn [fst] in *.
      rewrite requests_app. exact Hsplit.
Qed.

End SessionFacts.

(** ** More of the widget at work *)

Section MoreDemonstrations.
Import Js Api Chatbot Expected View Submission Demo MoreDemo.
#[local] Existing Instance browser.

Lemma error_body_not_json_witness :
  (forall query chapter selectedText,
      gateway_down (chat_request query chapter selectedText) = inr bad_gateway ->
      outcome (queryChatbot query chapter selectedText) gateway_down = Throw not_json) /\
  (forall messageId feedback,
      gateway_down (feedback_request messageId feedback) = inr bad_gateway ->
      outcome (submitFeedback messageId feedback) gateway_down = Throw not_json).
Proof.
  apply (error_body_not_json gateway_down bad_gateway not_json); reflexivity.
Defined.

Lemma handleSubmit_drops_blank_witness :
  trace (handleSubmit 1%float 2%float blank) offline = [PreventDefault] /\
  outcome (handleSubmit 1%float 2%float blank) offline = Normal blank.
Proof.
  apply (handleSubmit_drops_blank 1%float 2%float blank offline).
  vm_compute. reflexivity.
Defined.

Lemma handleSubmit_answered_witness :
  outcome (handleSubmit 1%float 2%float asking) (reply 200 answered) =
    Normal (MkState (isOpen asking)
              (messages asking ++ [userMessage (trim (inputValue asking)) 1%float;
                                   botMessage answered])
              "" false None).
Proof.
  apply (handleSubmit_answered 1%float 2%float asking (reply 200 answered) answered).
  - vm_compute. reflexivity.
  - vm_compute. reflexivity.
  - discriminate.
  - discriminate.
Defined.

Lemma handleSubmit_failed_witness :
  outcome (handleSubmit 1%float 2%float asking) offline =
    Normal (MkState (isOpen asking)
              (messages asking ++ [userMessage (trim (inputValue asking)) 1%float;
                                   errorMessage 2%float])
              "" false (Some (error_text failed_to_fetch))).
Proof.
  apply (handleSubmit_failed 1%float 2%float asking offline failed_to_fetch).
  - vm_compute. reflexivity.
  - vm_compute. reflexivity.
Defined.

Lemma handleSubmit_one_reply_witness :
  exists st' reply,
    outcome (handleSubmit 1%float 2%float asking) offline = Normal st' /\
    messages st' =
      messages asking ++ [userMessage (trim (inputValue asking)) 1%float; reply] /\
    (type reply = "bot" /\ error st' = None \/
     reply = errorMessage 2%float /\ exists text, error st' = Some text /\ text <> "") /\
    inputValue st' = "" /\ isLoading st' = false /\ isOpen st' = isOpen asking.
Proof.
  apply (handleSubmit_one_reply 1%float 2%float asking offline).
  vm_compute. reflexivity.
Defined.

Lemma handleFeedback_failure_is_silent_witness :
  outcome (handleFeedback (JStr "m1") (JStr "helpful") two_answers) offline =
    Normal two_answers /\
  trace (handleFeedback (JStr "m1") (JStr "helpful") two_answers) offline =
    [Fetch (feedback_request (JStr "m1") (JStr "helpful"));
     ConsoleError "Feedback submission error:" failed_to_fetch;
     ConsoleError "Failed to submit feedback:" failed_to_fetch].
Proof.
  apply (handleFeedback_failure_is_silent (JStr "m1") (JStr "helpful") two_answers
           offline failed_to_fetch).
  vm_compute. reflexivity.
Defined.

Lemma feedback_is_given_once_witness :
  exists st' msg',
    outcome (step (ClickFeedback 0 true) two_answers) (reply 200 feedback_saved) =
      Normal st' /\
    messages st' !! 0 = Some msg' /\
    shows_confirmation msg' = true /\
    shows_feedback_buttons msg' = false /\
    forall again net',
      trace (step (ClickFeedback 0 again) st') net' = [] /\
      outcome (step (ClickFeedback 0 again) st') net' = Normal st'.
Proof.
  apply (feedback_is_given_once 0 true two_answers (reply 200 feedback_saved)
           (bot_message "m1") "m1" feedback_saved).
  - reflexivity.
  - reflexivity.
  - reflexivity.
  - reflexivity.
  - vm_compute. reflexivity.
Defined.

Lemma handler_keeps_history_witness :
  length (messages chatting) <=
    length (messages chatting ++ [userMessage "What is SLAM?" 1%float;
                                  botMessage answered]) /\
  forall i msg, messages chatting !! i = Some msg ->
    exists msg',
      (messages chatting ++ [userMessage "What is SLAM?" 1%float; botMessage answered])
        !! i = Some msg' /\
      same_but_feedback msg msg'.
Proof.
  apply (handler_keeps_history (SubmitForm 1%float 2%float) chatting
           (MkState true
              (messages chatting ++ [userMessage "What is SLAM?" 1%float;
                                     botMessage answered])
              "" false None)
           (reply 200 answered)).
  vm_compute. reflexivity.
Defined.

Lemma widget_feedback_requests_witness :
  exists id helpful,
    truthy id = true /\
    feedback_request (JStr "m1") (JStr "helpful") =
      feedback_request id (button_feedback helpful) /\
    body (feedback_request (JStr "m1") (JStr "helpful")) =
      Some (JObj [("feedback", button_feedback helpful)]).
Proof.
  apply (widget_feedback_requests
           [(ClickFeedback 0 true, reply 200 feedback_saved)] two_answers).
  - vm_compute. apply list_elem_of_here.
  - reflexivity.
Defined.

(** Two handler calls in a row: the question is answered, the answer is
    rated, and both requests went out. *)
Example a_session :
  map method
      (requests (run [(SubmitForm 1%float 2%float, reply 200 answered);
                      (ClickFeedback 2 true, reply 200 feedback_saved)]
                     chatting).1) = ["POST"; "PUT"] /\
  map (fun m => (type m, feedback m))
      (messages (run [(SubmitForm 1%float 2%float, reply 200 answered);
                      (ClickFeedback 2 true, reply 200 feedback_saved)]
                     chatting).2) =
    [("bot", JUndefined); ("user", JUndefined); ("bot", JStr "helpful")].
Proof. vm_compute. split; reflexivity. Qed.

End MoreDemonstrations.
